(** * The image-generation client of PROTON (src/services/geminiService.ts)

    A shallow embedding of [QuantumAI]: the prompt builder, the response
    parser, the request/poll client and the result normalisation, together
    with the properties the specification states about them.

    JavaScript data is modelled as it is at run time: a response body is
    whatever [JSON.parse] produced, numbers are IEEE-754 binary64 values
    (Rocq's primitive floats), strings are sequences of characters, and a
    property read on a value that has no such property yields [undefined]. *)

From Stdlib Require Import String Ascii List ZArith Bool Lia Floats DecimalString.
Import ListNotations.
Local Open Scope string_scope.
Set Warnings "-register-all,-inexact-float".

(** ** JavaScript values *)

(** The values a parsed JSON body is made of, plus [undefined], which JSON
    never contains but every missing property evaluates to.  An object keeps
    its own properties in insertion order. *)
Inductive JSValue : Type :=
| JUndefined
| JNull
| JBool (b : bool)
| JNumber (x : float)
| JString (s : string)
| JArray (items : list JSValue)
| JObject (props : list (string * JSValue)).

(** ToBoolean: [undefined], [null], [false], [0], [-0], [NaN] and the empty
    string are falsy, everything else (every array and object too) is truthy. *)
Definition truthy (v : JSValue) : bool :=
  match v with
  | JUndefined | JNull => false
  | JBool b => b
  | JNumber x => negb (PrimFloat.is_zero x || PrimFloat.is_nan x)
  | JString s => negb (s =? EmptyString)
  | JArray _ | JObject _ => true
  end.

(** [a || b]: the left operand when it is truthy, the right one otherwise. *)
Definition js_or (a b : JSValue) : JSValue := if truthy a then a else b.

Definition nullish (v : JSValue) : bool :=
  match v with JUndefined | JNull => true | _ => false end.

Fixpoint lookup (k : string) (props : list (string * JSValue)) : JSValue :=
  match props with
  | [] => JUndefined
  | (k', v) :: rest => if k' =? k then v else lookup k rest
  end.

(** [v.k] on a value that is neither [null] nor [undefined], for the property
    names this service reads (status, error, message, image, ...): none of
    them is an index, [length] or a prototype member, so only a plain object
    can hold one. *)
Definition prop (v : JSValue) (k : string) : JSValue :=
  match v with
  | JObject props => lookup k props
  | _ => JUndefined
  end.

(** [v?.k] *)
Definition opt_prop (v : JSValue) (k : string) : JSValue :=
  if nullish v then JUndefined else prop v k.

(** [v?.[0]]: the first element of an array, the first character of a
    string, the property named 0 of an object. *)
Definition opt_index0 (v : JSValue) : JSValue :=
  match v with
  | JArray (x :: _) => x
  | JString (String c _) => JString (String c EmptyString)
  | JObject props => lookup "0" props
  | _ => JUndefined
  end.

Definition isArray (v : JSValue) : bool :=
  match v with JArray _ => true | _ => false end.

(** [v === "lit"] *)
Definition strict_eq_str (v : JSValue) (lit : string) : bool :=
  match v with JString s => s =? lit | _ => false end.

(** [typeof v === "string" && v.startsWith(p)] *)
Definition string_startsWith (v : JSValue) (p : string) : bool :=
  match v with JString s => prefix p s | _ => false end.

(** [s.includes(needle)] *)
Definition includes (s needle : string) : bool :=
  match index 0 needle s with Some _ => true | None => false end.

Definition toLowerCase_char (c : ascii) : ascii :=
  let n := nat_of_ascii c in
  if (65 <=? n)%nat && (n <=? 90)%nat then ascii_of_nat (n + 32) else c.

Fixpoint toLowerCase (s : string) : string :=
  match s with
  | EmptyString => EmptyString
  | String c rest => String (toLowerCase_char c) (toLowerCase rest)
  end.

(** An own property [k] with value [v] defined on the properties [props],
    as a property of an object literal defines it (the literal of lines
    170-175 after its spread): an existing property keeps its place and
    takes the value, a new one goes last.  For a name that is no array
    index; nothing of a prototype is consulted. *)
Fixpoint set_prop {A : Type} (k : string) (v : A) (props : list (string * A))
  : list (string * A) :=
  match props with
  | [] => [(k, v)]
  | (k', v') :: rest =>
      if k' =? k then (k', v) :: rest else (k', v') :: set_prop k v rest
  end.

Definition digit_of (c : ascii) : option N :=
  let n := N_of_ascii c in
  if ((48 <=? n) && (n <=? 57))%N then Some (n - 48)%N else None.

Fixpoint digits_value (acc : N) (s : string) : option N :=
  match s with
  | EmptyString => Some acc
  | String c rest =>
      match digit_of c with
      | Some d => digits_value (10 * acc + d)%N rest
      | None => None
      end
  end.

(** The array index a property name is, if it is one: 0, or decimal digits
    without a leading zero, of a value below 2^32 - 1. *)
Definition index_key (k : string) : option N :=
  match k with
  | EmptyString => None
  | String c rest =>
      if Ascii.eqb c "0"%char && negb (rest =? EmptyString) then None
      else match digits_value 0 k with
           | Some n => if (n <? 4294967295)%N then Some n else None
           | None => None
           end
  end.

(** A new array index among the properties of an object: the indices come
    first, in ascending order, before every other name. *)
Fixpoint insert_index {A : Type} (n : N) (k : string) (v : A) (props : list (string * A))
  : list (string * A) :=
  match props with
  | [] => [(k, v)]
  | (k', v') :: rest =>
      match index_key k' with
      | Some n' =>
          if (n' <? n)%N then (k', v') :: insert_index n k v rest
          else (k, v) :: props
      | None => (k, v) :: props
      end
  end.

(** [obj[k] = v] for a string [v] on an object made by a literal, whose own
    properties [props] are data properties and none of them is named
    __proto__.  The name __proto__ reaches the setter that [Object.prototype]
    has for it, which ignores a value that is neither an object nor [null]:
    the object stays as it is.  Every other name becomes an own property: an
    existing one keeps its place, a new array index goes among the indices,
    any other new name goes last. *)
Definition assign (k : string) (v : string) (props : list (string * string))
  : list (string * string) :=
  if k =? "__proto__" then props
  else match index_key k with
       | Some n =>
           if existsb (fun kv => fst kv =? k) props then set_prop k v props
           else insert_index n k v props
       | None => set_prop k v props
       end.

(** ** Types of the application (types.ts) *)

Inductive AtomType : Type := Hydrogen | Helium | Lithium | Carbon | Oxygen.

Definition atom_name (a : AtomType) : string :=
  match a with
  | Hydrogen => "Hydrogen"
  | Helium => "Helium"
  | Lithium => "Lithium"
  | Carbon => "Carbon"
  | Oxygen => "Oxygen"
  end.

Definition EntityType : Type := string.

Record WaveParams : Type := { wavelength : float; amplitude : float }.

(** ** Prompt builder *)

(** The fixed sentence of [buildPrompt] around its four holes. *)
Definition prompt_template (subject intensity density atom : string) : string :=
  "A " ++ subject ++ " materializing from " ++ intensity
  ++ " quantum energy waves, " ++ density
  ++ " streams of turquoise and emerald light converging around " ++ atom
  ++ " atoms. Set in a futuristic physics laboratory with holographic displays and volumetric lighting. Cinematic composition, ray-traced reflections, 8k ultra-detailed, atmospheric depth.".

Definition buildPrompt (atom : AtomType) (subject : EntityType) (params : WaveParams)
  : string :=
  let intensity :=
    if (1.5 <? wavelength params)%float then "intense"
    else if (wavelength params <? 0.8)%float then "subtle"
    else "moderate" in
  let density :=
    if (1.5 <? amplitude params)%float then "dense"
    else if (amplitude params <? 0.8)%float then "sparse"
    else "flowing" in
  prompt_template subject intensity density (atom_name atom).

(** ** Response parser *)

Definition parseImage (data : JSValue) : JSValue :=
  js_or (opt_prop data "image")
  (js_or (opt_index0 (opt_prop data "images"))
  (js_or (opt_index0 (opt_prop data "output"))
  (js_or (if isArray (opt_prop data "artifacts")
          then opt_prop (opt_index0 (prop data "artifacts")) "base64"
          else JUndefined)
         (if isArray (opt_prop data "data")
          then js_or (opt_prop (opt_index0 (prop data "data")) "b64_json")
                     (opt_prop (opt_index0 (prop data "data")) "url")
          else JUndefined)))).

(** ** Completions *)

(** What the run time itself throws, as opposed to an [Error] this service
    constructs: reading a property of [null], calling something that is not
    a function, converting an object that has no usable [toString], reading
    a response body twice, a failed network exchange, a body that is not
    JSON. *)
Inductive Fault : Type :=
| ReadOfNullish
| NotAFunction
| NotPrimitive
| BodyAlreadyUsed
| NetworkFailure
| InvalidJSON.

Inductive Exn : Type :=
| Error (message : string)
| Native (f : Fault).

Inductive Completion (A : Type) : Type :=
| Normal (a : A)
| Throw (e : Exn).
Arguments Normal {A} a.
Arguments Throw {A} e.

Definition cbind {A B : Type} (c : Completion A) (k : A -> Completion B)
  : Completion B :=
  match c with Normal a => k a | Throw e => Throw e end.

(** [v.k] where [v] may be [null]: a TypeError then. *)
Definition dot (v : JSValue) (k : string) : Completion JSValue :=
  if nullish v then Throw (Native ReadOfNullish) else Normal (prop v k).

Definition has_own (k : string) (props : list (string * JSValue)) : bool :=
  existsb (fun kv => fst kv =? k) props.

(** [v.includes(needle)]: a substring test on a string, a membership test on
    an array, a TypeError on anything else. *)
Definition method_includes (v : JSValue) (needle : string) : Completion bool :=
  match v with
  | JString s => Normal (includes s needle)
  | JArray items => Normal (existsb (fun x => strict_eq_str x needle) items)
  | _ => Throw (Native NotAFunction)
  end.

(** ** The platform *)

(** Built-ins of the JavaScript run time the service calls and this
    repository does not define. *)
Class Platform : Type := {
  JSON_parse : string -> option JSValue;
  JSON_stringify : JSValue -> string;
  Number_toString : float -> string;
  Number_ofString : string -> float;
  Math_floor : float -> float;
  encodeURIComponent : string -> string
}.

(** [import.meta.env]: every variable is a string or missing. *)
Record Env : Type := {
  VITE_SD_API_BASE_URL : option string;
  VITE_SD_ENDPOINT : option string;
  VITE_SD_IMG2IMG_ENDPOINT : option string;
  VITE_SD_API_KEY : option string;
  VITE_SD_API_KEY_HEADER : option string;
  VITE_SD_MODEL : option string;
  VITE_SD_WIDTH : option string;
  VITE_SD_HEIGHT : option string;
  VITE_SD_SAMPLES : option string
}.

Definition str_truthy (s : string) : bool := negb (s =? EmptyString).

(** [import.meta.env.X || fallback] *)
Definition env_or (x : option string) (fallback : string) : string :=
  match x with
  | Some s => if str_truthy s then s else fallback
  | None => fallback
  end.

(** ** The network *)

Record Request : Type := {
  url : string;
  method : string;
  headers : list (string * string);
  body : string
}.

(** What the server sent back: the status class and the body ([None] for a
    response without a body). *)
Record HttpReply : Type := { reply_ok : bool; reply_body : option string }.

Inductive FetchResult : Type :=
| NetworkError
| Replied (r : HttpReply).

(** A [Response] object: its body can be read once. *)
Record Response : Type := { ok : bool; content : option string; bodyUsed : bool }.

(** The world one call runs in: the answer to its k-th [fetch] (counted from
    0, the initial request) and the value [Math.random()] returns. *)
Record World : Type := { responses : nat -> FetchResult; random : float }.

(** What a call does, in order. *)
Inductive Event : Type :=
| EFetch (r : Request)
| ESleep (ms : Z).

Record Run : Type := { fetched : nat; trace : list Event }.

Definition start : Run := {| fetched := 0; trace := [] |}.

(** An async computation: it extends the run and completes normally or throws. *)
Definition Async (A : Type) : Type := Run -> Completion A * Run.

Definition ret {A : Type} (a : A) : Async A := fun r => (Normal a, r).

Definition throw {A : Type} (e : Exn) : Async A := fun r => (Throw e, r).

Definition lift {A : Type} (c : Completion A) : Async A := fun r => (c, r).

Definition bind {A B : Type} (m : Async A) (k : A -> Async B) : Async B :=
  fun r =>
    match m r with
    | (Normal a, r') => k a r'
    | (Throw e, r') => (Throw e, r')
    end.

Notation "x <- m ;; k" := (bind m (fun x => k))
  (at level 61, m at next level, right associativity).
Notation "m ;;; k" := (bind m (fun _ => k))
  (at level 61, right associativity).

Definition sleep (ms : Z) : Async unit :=
  fun r => (Normal tt, {| fetched := fetched r; trace := trace r ++ [ESleep ms] |}).

Definition fetch (w : World) (req : Request) : Async Response :=
  fun r =>
    let r' := {| fetched := S (fetched r); trace := trace r ++ [EFetch req] |} in
    match responses w (fetched r) with
    | NetworkError => (Throw (Native NetworkFailure), r')
    | Replied rep =>
        (Normal {| ok := reply_ok rep; content := reply_body rep; bodyUsed := false |}, r')
    end.

(** [response.text()]: the body text, once; a second read of a body is a
    TypeError.  A response without a body reads as the empty string and is
    never used up. *)
Definition Response_text (r : Response) : Completion string * Response :=
  match content r with
  | None => (Normal EmptyString, r)
  | Some s =>
      if bodyUsed r then (Throw (Native BodyAlreadyUsed), r)
      else (Normal s, {| ok := ok r; content := content r; bodyUsed := true |})
  end.

(** ** The service *)

Section Service.
Context {PF : Platform}.

(** String conversion, as a template literal or [new Error(v)] applies it.
    An array joins its elements with commas ([null] and [undefined] print as
    nothing); a plain object prints as [[object Object]] unless it carries a
    property named toString, which no JSON value can make callable. *)
Fixpoint ToString (v : JSValue) : Completion string :=
  match v with
  | JUndefined => Normal "undefined"
  | JNull => Normal "null"
  | JBool b => Normal (if b then "true" else "false")
  | JNumber x => Normal (Number_toString x)
  | JString s => Normal s
  | JArray items =>
      (fix join (l : list JSValue) : Completion string :=
         match l with
         | [] => Normal EmptyString
         | x :: rest =>
             cbind (if nullish x then Normal EmptyString else ToString x) (fun sx =>
             match rest with
             | [] => Normal sx
             | _ => cbind (join rest) (fun sr => Normal (sx ++ "," ++ sr))
             end)
         end) items
  | JObject props =>
      if has_own "toString" props then Throw (Native NotPrimitive)
      else Normal "[object Object]"
  end.

(** [new Error(v)] *)
Definition new_Error (v : JSValue) : Exn :=
  match ToString v with
  | Normal s => Error s
  | Throw e => e
  end.

(** [response.json()]: reads the body, then parses it. *)
Definition Response_json (r : Response) : Completion JSValue * Response :=
  match Response_text r with
  | (Normal s, r') =>
      (match JSON_parse s with
       | Some v => Normal v
       | None => Throw (Native InvalidJSON)
       end, r')
  | (Throw e, r') => (Throw e, r')
  end.

Variable env : Env.

(** The module's constants (lines 8-23 of the service). *)
Definition SD_API_BASE : string :=
  env_or (VITE_SD_API_BASE_URL env) "https://modelslab.com".

Definition SD_ENDPOINT : string :=
  env_or (VITE_SD_ENDPOINT env)
    (if includes SD_API_BASE "/api/" then SD_API_BASE
     else SD_API_BASE ++ "/api/v6/images/text2img").

Definition SD_IMG2IMG_ENDPOINT : string :=
  env_or (VITE_SD_IMG2IMG_ENDPOINT env) (SD_API_BASE ++ "/api/v6/images/img2img").

Definition SD_API_KEY : string := env_or (VITE_SD_API_KEY env) EmptyString.

Definition SD_API_KEY_HEADER : string :=
  env_or (VITE_SD_API_KEY_HEADER env) EmptyString.

Definition SD_MODEL : string := env_or (VITE_SD_MODEL env) "flux-2-dev".

Definition SD_WIDTH : string := env_or (VITE_SD_WIDTH env) "1024".

Definition SD_HEIGHT : string := env_or (VITE_SD_HEIGHT env) "1024".

Definition SD_SAMPLES : float :=
  match VITE_SD_SAMPLES env with
  | Some s => if str_truthy s then Number_ofString s else 1%float
  | None => 1%float
  end.

Definition maxAttempts : nat := 6.

Definition delayMs : Z := 5000.

(** The headers of the initial request (lines 50-57): the own properties of
    the object the call hands to [fetch], in their order. *)
Definition request_headers : list (string * string) :=
  let headers :=
    [("Content-Type", "application/json"); ("Accept", "application/json")] in
  if str_truthy SD_API_KEY && str_truthy SD_API_KEY_HEADER then
    assign SD_API_KEY_HEADER
      (if toLowerCase SD_API_KEY_HEADER =? "authorization"
       then "Bearer " ++ SD_API_KEY
       else SD_API_KEY)
      headers
  else headers.

(** The URL of a poll (lines 89-92); [fetch] converts a non-string to a string. *)
Definition urlWithKey (fetchUrl : JSValue) : Completion string :=
  if str_truthy SD_API_KEY then
    cbind (method_includes fetchUrl "key=") (fun has_key =>
    if negb has_key then
      cbind (ToString fetchUrl) (fun u =>
      cbind (method_includes fetchUrl "?") (fun has_query =>
      Normal (u ++ (if has_query then "&" else "?") ++ "key="
                ++ encodeURIComponent SD_API_KEY)))
    else ToString fetchUrl)
  else ToString fetchUrl.

Definition poll_request (initialData : JSValue) (u : string) : Request :=
  {| url := u;
     method := "POST";
     headers := [("Accept", "application/json"); ("Content-Type", "application/json")];
     body := JSON_stringify
               (JObject [("key", JString SD_API_KEY);
                         ("request_id", opt_prop initialData "id")]) |}.

(** Lines 138-139. *)
Definition normalizeResult (image : JSValue) : Completion string :=
  let isUrl := string_startsWith image "http" in
  if isUrl then ToString image
  else cbind (ToString image) (fun s => Normal ("data:image/png;base64," ++ s)).

Variable w : World.

(** The polling loop (lines 86-125), on the attempts still allowed: it ends
    with the image found, if any, and the last body read. *)
Fixpoint poll_loop (remaining : nat) (initialData fetchUrl image lastData : JSValue)
  : Async (JSValue * JSValue) :=
  match remaining with
  | O => ret (image, lastData)
  | S remaining' =>
      if truthy image then ret (image, lastData)
      else
        sleep delayMs ;;;
        u <- lift (urlWithKey fetchUrl) ;;
        pollRes <- fetch w (poll_request initialData u) ;;
        if negb (ok pollRes) then
          pollText <- lift (fst (Response_text pollRes)) ;;
          throw (Error ("Stable Diffusion poll failed: " ++ pollText))
        else
          let (parsed, pollRes') := Response_json pollRes in
          match parsed with
          | Throw _ =>
              pollText <- lift (fst (Response_text pollRes')) ;;
              throw (Error ("Stable Diffusion poll parse failed: " ++ pollText))
          | Normal lastData' =>
              if strict_eq_str (opt_prop lastData' "status") "error"
                 || truthy (opt_prop lastData' "error")
              then
                let msg := js_or (opt_prop lastData' "message")
                                 (opt_prop lastData' "error") in
                throw (new_Error (js_or msg (JString "Stable Diffusion polling error")))
              else
                let image' := parseImage lastData' in
                if negb (strict_eq_str (opt_prop lastData' "status") "processing")
                   && negb (truthy image')
                then ret (image', lastData')
                else poll_loop remaining' initialData fetchUrl image' lastData'
          end
  end.

Definition requestAndPoll (endpoint : string) (payload : JSValue) : Async string :=
  response <- fetch w {| url := endpoint;
                         method := "POST";
                         headers := request_headers;
                         body := JSON_stringify payload |} ;;
  if negb (ok response) then
    text <- lift (fst (Response_text response)) ;;
    throw (Error ("Stable Diffusion request failed: " ++ text))
  else
    initialData <- lift (fst (Response_json response)) ;;
    status <- lift (dot initialData "status") ;;
    if strict_eq_str status "error" || strict_eq_str status "failed"
       || truthy (prop initialData "error")
    then
      let msg := js_or (prop initialData "message") (prop initialData "error") in
      let detail := opt_prop (opt_prop initialData "error_log") "error" in
      if truthy detail then
        m <- lift (ToString (js_or msg (JString "Generation failed"))) ;;
        d <- lift (ToString detail) ;;
        throw (Error (m ++ " (" ++ d ++ ")"))
      else throw (new_Error (js_or msg (JString "Stable Diffusion error")))
    else
      image <-
        (let image := parseImage initialData in
         if negb (truthy image)
            && strict_eq_str (prop initialData "status") "processing"
            && truthy (prop initialData "fetch_result")
         then
           polled <- poll_loop maxAttempts initialData
                       (prop initialData "fetch_result") image initialData ;;
           if negb (truthy (fst polled)) then
             throw (Error ("No image returned from Stable Diffusion after polling. Payload: "
                           ++ substring 0 400 (JSON_stringify (snd polled))))
           else ret (fst polled)
         else ret image) ;;
      if negb (truthy image) then
        throw (Error ("No image returned from Stable Diffusion. Payload: "
                      ++ substring 0 400 (JSON_stringify initialData)))
      else lift (normalizeResult image).

Definition negative_prompt : string :=
  "blurry, low quality, watermark, text, logo, deformed, disfigured, bad anatomy, extra limbs, cropped, out of frame".

Definition generateQuantumManifestation
  (atom : AtomType) (entity : EntityType) (params : WaveParams)
  (baseImage : option string) : Async string :=
  let prompt := buildPrompt atom entity params in
  let seed := Math_floor (random w * 10000000)%float in
  let basePayload :=
    [("model_id", JString SD_MODEL);
     ("prompt", JString prompt);
     ("width", JString SD_WIDTH);
     ("height", JString SD_HEIGHT);
     ("num_inference_steps", JNumber 30%float);
     ("samples", JNumber SD_SAMPLES);
     ("seed", JNumber seed);
     ("negative_prompt", JString negative_prompt);
     ("key", JString SD_API_KEY)] in
  match baseImage with
  | Some b =>
      if str_truthy b then
        let initImage :=
          if prefix "http" b || prefix "data:" b then b
          else "data:image/png;base64," ++ b in
        let imgPayload :=
          set_prop "key" (JString SD_API_KEY)
            (set_prop "prompt" (JString prompt)
               (set_prop "init_image" (JArray [JString initImage]) basePayload)) in
        requestAndPoll SD_IMG2IMG_ENDPOINT (JObject imgPayload)
      else requestAndPoll SD_ENDPOINT (JObject basePayload)
  | None => requestAndPoll SD_ENDPOINT (JObject basePayload)
  end.

End Service.

Arguments poll_loop {PF} env w remaining initialData fetchUrl image lastData.

(** One whole call, from a fresh run. *)
Definition call {PF : Platform} (env : Env) (w : World)
  (atom : AtomType) (entity : EntityType) (params : WaveParams)
  (baseImage : option string) : Completion string * Run :=
  generateQuantumManifestation env w atom entity params baseImage start.

(** ** Notions the specification uses *)

(** The text of a reply ([response.text()] on a fresh response). *)
Definition reply_text (rep : HttpReply) : string :=
  match reply_body rep with Some s => s | None => EmptyString end.

(** The k-th [fetch] is answered with a success status and a body that
    parses to [data]. *)
Definition replies_json {PF : Platform} (w : World) (k : nat) (data : JSValue) : Prop :=
  exists text,
    responses w k = Replied {| reply_ok := true; reply_body := Some text |}
    /\ JSON_parse text = Some data.

(** A body that says the job is still running and holds no image. *)
Definition still_processing (data : JSValue) : Prop :=
  strict_eq_str (opt_prop data "status") "processing" = true
  /\ truthy (parseImage data) = false.

(** A body with no error field that counts (absent, or falsy). *)
Definition no_error_field (data : JSValue) : Prop :=
  truthy (opt_prop data "error") = false.

(** The events of [n] poll attempts with request [req]. *)
Definition poll_events (req : Request) (n : nat) : list Event :=
  concat (repeat [ESleep 5000; EFetch req] n).

Definition header_value (name : string) (hs : list (string * string)) : option string :=
  option_map snd (find (fun kv => fst kv =? name) hs).

(** Section 4.4 of the specification, in its own words: the first element of
    an array is taken of an array only, and the result is the first
    candidate that is present and non-empty, absent ([None]) otherwise. *)
Definition first_of_array (v : JSValue) : JSValue :=
  match v with
  | JArray (x :: _) => x
  | _ => JUndefined
  end.

Definition extractImage_spec (body : JSValue) : option JSValue :=
  find truthy
    [ prop body "image";
      first_of_array (prop body "images");
      first_of_array (prop body "output");
      prop (first_of_array (prop body "artifacts")) "base64";
      prop (first_of_array (prop body "data")) "b64_json";
      prop (first_of_array (prop body "data")) "url" ].

(** What a caller of [parseImage] sees: an image, or nothing it can use. *)
Definition present (v : JSValue) : option JSValue :=
  if truthy v then Some v else None.

(** A field that is an array when it is there at all. *)
Definition array_if_present (v : JSValue) : Prop :=
  isArray v = true \/ nullish v = true.

(** Section 4.5 of the specification, in its own words: a string that begins
    with an HTTP(S) scheme. *)
Definition has_http_scheme (s : string) : bool :=
  prefix "http://" s || prefix "https://" s.

(** The initial body that sends the call into the polling loop: the job is
    running, there is no image and no error field, and a fetch-result URL. *)
Definition accepted_for_polling (data : JSValue) (fetchUrl : string) : Prop :=
  still_processing data
  /\ no_error_field data
  /\ opt_prop data "fetch_result" = JString fetchUrl
  /\ fetchUrl <> EmptyString.

(** The run after [n] more poll attempts with request [req]. *)
Definition after_polls (r : Run) (req : Request) (n : nat) : Run :=
  {| fetched := fetched r + n; trace := trace r ++ poll_events req n |}.

(** [image] is the truthy value that [parseImage] finds in the body of the
    k-th reply. *)
Definition extracted_from {PF : Platform} (w : World) (k : nat) (image : JSValue) : Prop :=
  exists (rep : HttpReply) (data : JSValue),
    responses w k = Replied rep
    /\ JSON_parse (reply_text rep) = Some data
    /\ parseImage data = image
    /\ truthy image = true.

(** A computation that only ever adds events to the run. *)
Definition grows {A : Type} (m : Async A) : Prop :=
  forall r : Run, exists more : list Event, trace (snd (m r)) = (trace r ++ more)%list.

(** ** A test double of the platform and some scripted servers *)

Module Demo.

Definition dq : string := String (ascii_of_nat 34) EmptyString.

(** The integer a number is, when it is one. *)
Definition integral (x : float) : option Z :=
  match Prim2SF x with
  | S754_zero _ => Some 0%Z
  | S754_finite negative m e =>
      option_map (fun z => if negative then (- z)%Z else z)
        (if (0 <=? e)%Z then Some (Z.pos m * 2 ^ e)%Z
         else if (Z.pos m mod 2 ^ (- e) =? 0)%Z then Some (Z.pos m / 2 ^ (- e))%Z
         else None)
  | _ => None
  end.

(** Integers print in decimal; the scripts below use no other number. *)
Definition number_text (x : float) : string :=
  match integral x with
  | Some z => NilZero.string_of_int (Z.to_int z)
  | None => "NaN"
  end.

(** Reads a natural number in decimal. *)
Definition text_number (s : string) : float :=
  match NilZero.uint_of_string s with
  | Some u => PrimFloat.of_uint63 (Uint63.of_Z (Z.of_N (N.of_uint u)))
  | None => nan
  end.

(** JSON text of the values the scripted servers send and the service
    posts: strings without escapes, integers, objects, arrays, booleans and
    null. *)
Fixpoint stringify (v : JSValue) : string :=
  match v with
  | JUndefined | JNull => "null"
  | JBool b => if b then "true" else "false"
  | JNumber x => number_text x
  | JString s => dq ++ s ++ dq
  | JArray items =>
      "[" ++ (fix elems (l : list JSValue) : string :=
                match l with
                | [] => EmptyString
                | x :: rest =>
                    stringify x
                    ++ match rest with [] => EmptyString | _ => "," ++ elems rest end
                end) items ++ "]"
  | JObject props =>
      "{" ++ (fix members (l : list (string * JSValue)) : string :=
                match l with
                | [] => EmptyString
                | (k, x) :: rest =>
                    dq ++ k ++ dq ++ ":" ++ stringify x
                    ++ match rest with [] => EmptyString | _ => "," ++ members rest end
                end) props ++ "}"
  end.

Definition job_accepted : JSValue :=
  JObject [("status", JString "processing");
           ("fetch_result", JString "https://p/poll");
           ("id", JString "r1")].

Definition job_running : JSValue := JObject [("status", JString "processing")].

Definition job_done : JSValue := JObject [("image", JString "https://cdn/img.png")].

Definition job_gone : JSValue := JObject [("status", JString "success")].

Definition job_running_with_error : JSValue :=
  JObject [("status", JString "processing"); ("error", JString "quota exceeded")].

Definition job_accepted_with_error : JSValue :=
  JObject [("status", JString "processing");
           ("fetch_result", JString "https://p/poll");
           ("error", JString "rate limited")].

Definition job_failed_with_image : JSValue :=
  JObject [("status", JString "failed");
           ("message", JString "boom");
           ("image", JString "aGVsbG8=")].

Definition job_failed : JSValue :=
  JObject [("status", JString "failed"); ("message", JString "out of credits")].

Definition bodies : list JSValue :=
  [job_accepted; job_running; job_done; job_gone; job_running_with_error;
   job_accepted_with_error; job_failed_with_image; job_failed].

(** Parses exactly the texts of [bodies]; anything else is not JSON here. *)
Definition parse (text : string) : option JSValue :=
  find (fun v => stringify v =? text) bodies.

(** The scripts draw a random number whose product with 10^7 is an integer
    already, and use keys made of letters and digits, which
    [encodeURIComponent] leaves alone. *)
#[export] Instance platform : Platform := {|
  JSON_parse := parse;
  JSON_stringify := stringify;
  Number_toString := number_text;
  Number_ofString := text_number;
  Math_floor := fun x => x;
  encodeURIComponent := fun s => s
|}.

Definition json_reply (v : JSValue) : FetchResult :=
  Replied {| reply_ok := true; reply_body := Some (stringify v) |}.

Definition text_reply (text : string) : FetchResult :=
  Replied {| reply_ok := true; reply_body := Some text |}.

(** A server that answers the fetches of a call from a list, then with
    [rest] for ever. *)
Definition script (first : list FetchResult) (rest : FetchResult) : World :=
  {| responses := fun k => nth k first rest; random := 0.25%float |}.

Definition never_finishes : World := script [json_reply job_accepted] (json_reply job_running).

Definition finishes_on_second_poll : World :=
  script [json_reply job_accepted; json_reply job_running] (json_reply job_done).

Definition gives_up_on_second_poll : World :=
  script [json_reply job_accepted; json_reply job_running] (json_reply job_gone).

Definition running_with_error : World :=
  script [json_reply job_accepted] (json_reply job_running_with_error).

Definition accepted_with_error : World :=
  script [json_reply job_accepted_with_error] (json_reply job_running).

Definition fails_with_image : World :=
  script [json_reply job_accepted] (json_reply job_failed_with_image).

Definition fails_without_image : World :=
  script [json_reply job_accepted] (json_reply job_failed).

Definition bad_gateway_page : string := "<html>502 Bad Gateway</html>".

Definition poll_not_json : World :=
  script [json_reply job_accepted] (text_reply bad_gateway_page).

Definition no_env : Env :=
  {| VITE_SD_API_BASE_URL := None; VITE_SD_ENDPOINT := None;
     VITE_SD_IMG2IMG_ENDPOINT := None; VITE_SD_API_KEY := None;
     VITE_SD_API_KEY_HEADER := None; VITE_SD_MODEL := None;
     VITE_SD_WIDTH := None; VITE_SD_HEIGHT := None; VITE_SD_SAMPLES := None |}.

Definition env_with (key header : string) : Env :=
  {| VITE_SD_API_BASE_URL := None; VITE_SD_ENDPOINT := None;
     VITE_SD_IMG2IMG_ENDPOINT := None; VITE_SD_API_KEY := Some key;
     VITE_SD_API_KEY_HEADER := Some header; VITE_SD_MODEL := None;
     VITE_SD_WIDTH := None; VITE_SD_HEIGHT := None; VITE_SD_SAMPLES := None |}.

Definition unit_wave : WaveParams := {| wavelength := 1%float; amplitude := 1%float |}.

Definition arctic_fox (e : Env) (w : World) : Completion string * Run :=
  call e w Hydrogen "arctic fox" unit_wave None.

End Demo.

(** ** What a run costs *)

(** The number of requests in a trace, and the time slept in it. *)
Fixpoint requests (t : list Event) : nat :=
  match t with
  | [] => 0
  | EFetch _ :: rest => S (requests rest)
  | ESleep _ :: rest => requests rest
  end.

Fixpoint waited (t : list Event) : Z :=
  match t with
  | [] => 0%Z
  | EFetch _ :: rest => waited rest
  | ESleep ms :: rest => (ms + waited rest)%Z
  end.

(** The run of a call that made its initial request and nothing else. *)
Definition one_request (req : Request) : Run := {| fetched := 1; trace := [EFetch req] |}.

(** The run of a call that made its initial request and then [n] polls. *)
Definition polled_run (req0 reqp : Request) (n : nat) : Run :=
  {| fetched := S n; trace := EFetch req0 :: poll_events reqp n |}.

(** The k-th [fetch] finds the job accepted and, before it, still running:
    reply 0 accepts the job and replies 1, ..., k - 1 all say processing. *)
Definition polls_until {PF : Platform} (w : World) (d0 : JSValue) (u0 : string)
  (d : nat -> JSValue) (k : nat) : Prop :=
  replies_json w 0 d0
  /\ accepted_for_polling d0 u0
  /\ 1 <= k <= 6
  /\ (forall j, 1 <= j < k ->
                replies_json w j (d j) /\ still_processing (d j) /\ no_error_field (d j)).

(** More scripted servers. *)
Module Scenes.

Definition refusal (text : string) : FetchResult :=
  Replied {| reply_ok := false; reply_body := Some text |}.

Definition image_at_once : World :=
  Demo.script [Demo.json_reply Demo.job_done] NetworkError.

Definition unauthorized : World := Demo.script [refusal "Unauthorized"] NetworkError.

Definition offline : World := Demo.script [] NetworkError.

Definition initial_not_json : World :=
  Demo.script [Demo.text_reply Demo.bad_gateway_page] NetworkError.

Definition job_rejected : World := Demo.script [Demo.json_reply Demo.job_failed] NetworkError.

Definition nothing_to_poll : World := Demo.script [Demo.json_reply Demo.job_gone] NetworkError.

Definition throttled_on_second_poll : World :=
  Demo.script [Demo.json_reply Demo.job_accepted; Demo.json_reply Demo.job_running]
    (refusal "Too Many Requests").

Definition error_on_second_poll : World :=
  Demo.script [Demo.json_reply Demo.job_accepted; Demo.json_reply Demo.job_running]
    (Demo.json_reply Demo.job_running_with_error).

Definition page_on_second_poll : World :=
  Demo.script [Demo.json_reply Demo.job_accepted; Demo.json_reply Demo.job_running]
    (Demo.text_reply Demo.bad_gateway_page).

(** The replies a server of the scripts above has sent by the second poll. *)
Definition running_then (last : JSValue) (j : nat) : JSValue :=
  if Nat.eqb j 1 then Demo.job_running else last.

End Scenes.

(** The initial body passes the error test of line 72. *)
Definition passes_initial_check (data : JSValue) : Prop :=
  strict_eq_str (prop data "status") "error" = false
  /\ strict_eq_str (prop data "status") "failed" = false
  /\ truthy (prop data "error") = false.

(** A base image that counts: given and not empty. *)
Definition has_base_image (baseImage : option string) : bool :=
  match baseImage with
  | Some b => str_truthy b
  | None => false
  end.

(** An environment variable that counts: set and not empty. *)
Definition configured (x : option string) : bool :=
  match x with
  | Some s => str_truthy s
  | None => false
  end.

(** [value] is what [x || fallback] gives for the environment variable [x]:
    the variable when it is set and not empty, the fallback otherwise. *)
Definition falls_back (x : option string) (value fallback : string) : Prop :=
  (forall s : string, x = Some s -> s <> EmptyString -> value = s)
  /\ (configured x = false -> value = fallback).

(** ** The application (App.tsx) *)

(** *** The name of a downloaded image *)

Definition is_lower_alnum (c : ascii) : bool :=
  let n := nat_of_ascii c in
  ((97 <=? n)%nat && (n <=? 122)%nat) || ((48 <=? n)%nat && (n <=? 57)%nat).

Definition dash : ascii := ascii_of_nat 45.

(** [s.replace(/[^a-z0-9]+/g, "-")]: every maximal run of characters other
    than a-z and 0-9 becomes one dash; [in_run] says that the run the next
    character would belong to has its dash already. *)
Fixpoint replace_runs (in_run : bool) (s : string) : string :=
  match s with
  | EmptyString => EmptyString
  | String c rest =>
      if is_lower_alnum c then String c (replace_runs false rest)
      else if in_run then replace_runs true rest
      else String dash (replace_runs true rest)
  end.

(** The part of the file name made from the entity.  (Characters are code
    units below 256: those that [toLowerCase] of the run time changes and
    [toLowerCase] above does not are outside a-z0-9 before and after, so the
    replacement turns them into a dash either way.) *)
Definition slug (s : string) : string := replace_runs false (toLowerCase s).

(** The [download] attribute [downloadImage] gives its link. *)
Definition download_name (selectedEntity : string) : string :=
  "quantum-"
  ++ slug (if str_truthy selectedEntity then selectedEntity else "subject")
  ++ ".png".

Fixpoint all_chars (p : ascii -> bool) (s : string) : bool :=
  match s with
  | EmptyString => true
  | String c rest => p c && all_chars p rest
  end.

Definition is_dash (c : ascii) : bool := Ascii.eqb c dash.

(** *** Random subjects and explanations *)

Definition ANIMALS : list EntityType :=
  ["arctic fox"; "great white shark"; "blue whale"; "emperor penguin"; "golden eagle";
   "snow leopard"; "giant octopus"; "hummingbird"; "manta ray"; "wolf"; "jellyfish";
   "owl"; "sea turtle"; "coral reef fish"; "dragonfly"; "peacock"].

Definition SPACE_PHENOMENA : list EntityType :=
  ["spiral galaxy"; "supernova explosion"; "aurora borealis"; "solar flare";
   "black hole accretion disk"; "planetary nebula"; "comet tail"; "Saturn's rings";
   "Jupiter's great red spot"; "Milky Way core"; "neutron star"; "asteroid field";
   "lunar eclipse"; "meteor shower"; "interstellar dust cloud"; "pulsar beam"].

Definition VISUAL_STYLES : list string :=
  ["bioluminescent"; "ethereal"; "iridescent"; "crystalline"; "radiant"; "translucent";
   "shimmering"; "luminous"].

Definition openings : list string :=
  ["Under extreme decoherence";
   "When the chamber hit maximum resonance";
   "As spacetime thinned around the coil";
   "With the wavefunction stretched to its limits"].

Definition motifs : list string :=
  ["the field braided its probability tides";
   "quantum foam crystallized into mythic contours";
   "dark energy filaments stitched a silhouette";
   "plasma vortices carved out improbable anatomy";
   "gravity waves tuned every particle into song"].

Definition payoffs : list string :=
  ["until it resembled"; "coalescing around"; "collapsing straight into";
   "snapping into the outline of"].

Definition finishes : list string :=
  ["leaving auroral scars across the chamber glass.";
   "glittering for a heartbeat before dissolving.";
   "echoing like distant thunder in the far infra-bands.";
   "imprinting a brief afterimage on every sensor."].

(** The array index a number is: a non-negative integer, or none. *)
Definition array_index (x : float) : option nat :=
  match Prim2SF x with
  | S754_zero _ => Some 0
  | S754_finite false m e =>
      if (0 <=? e)%Z then Some (Z.to_nat (Z.pos m * 2 ^ e))
      else if (Z.pos m mod 2 ^ (- e) =? 0)%Z then Some (Z.to_nat (Z.pos m / 2 ^ (- e)))
      else None
  | _ => None
  end.

Definition number_of_nat (n : nat) : float :=
  PrimFloat.of_uint63 (Uint63.of_Z (Z.of_nat n)).

(** A string in a template literal: [undefined] prints as its name. *)
Definition shown (x : option string) : string :=
  match x with Some s => s | None => "undefined" end.

(** What the browser gives one run of the application: the answers of the
    server and the values of the successive calls of [Math.random()]. *)
Record Browser : Type := { server : nat -> FetchResult; Math_random : nat -> float }.

Section App.
Context {PF : Platform}.
Variable env : Env.

(** [arr[Math.floor(r * arr.length)]] for the random number [r]. *)
Definition pick (arr : list string) (r : float) : option string :=
  match array_index (Math_floor (r * number_of_nat (List.length arr))%float) with
  | Some i => nth_error arr i
  | None => None
  end.

(** [pickRandomSubject], on the random numbers from the [i]-th on. *)
Definition pickRandomSubject (b : Browser) (i : nat) : EntityType :=
  let isAnimal := (Math_random b i <? 0.5)%float in
  let style := pick VISUAL_STYLES (Math_random b (i + 1)) in
  if isAnimal then
    let animal := pick ANIMALS (Math_random b (i + 2)) in
    shown style ++ " " ++ shown animal
  else
    let phenomenon := pick SPACE_PHENOMENA (Math_random b (i + 2)) in
    shown style ++ " " ++ shown phenomenon.

(** [QuantumAI.explainCollapse], on the random numbers from the [i]-th on. *)
Definition explainCollapse (b : Browser) (i : nat) (atom : AtomType) (entity : EntityType)
  : string :=
  shown (pick openings (Math_random b i)) ++ ", "
  ++ shown (pick motifs (Math_random b (i + 1))) ++ ", "
  ++ shown (pick payoffs (Math_random b (i + 2))) ++ " " ++ entity ++ ". "
  ++ shown (pick finishes (Math_random b (i + 3))).

(** *** Collapsing *)

Record QuantumState : Type := {
  isCollapsing : bool;
  isCollapsed : bool;
  collapsedImage : option string;
  explanation : option string;
  error : option string
}.

(** The state of the component that [handleCollapse] reads or writes.  The
    usage counter starts at 0 and moves by steps of one. *)
Record AppState : Type := {
  selectedAtom : AtomType;
  selectedEntity : EntityType;
  waveParams : WaveParams;
  isSubscribed : bool;
  usageCount : nat;
  showPaywall : bool;
  selfieData : option string;
  selfieUrl : string;
  state : QuantumState
}.

Definition MAX_FREE_USES : nat := 5.

(** White space, as [trim] sees it, among the code units below 256. *)
Definition is_space (c : ascii) : bool :=
  let n := nat_of_ascii c in
  ((9 <=? n)%nat && (n <=? 13)%nat) || (n =? 32)%nat || (n =? 160)%nat.

Fixpoint trimStart (s : string) : string :=
  match s with
  | EmptyString => EmptyString
  | String c rest => if is_space c then trimStart rest else s
  end.

Fixpoint trimEnd (s : string) : string :=
  match s with
  | EmptyString => EmptyString
  | String c rest =>
      match trimEnd rest with
      | EmptyString => if is_space c then EmptyString else String c EmptyString
      | kept => String c kept
      end
  end.

Definition trim (s : string) : string := trimEnd (trimStart s).

(** [selfieUrl.trim() || selfieData || undefined] *)
Definition chosen_base_image (url : string) (data : option string) : option string :=
  if str_truthy (trim url) then Some (trim url)
  else match data with
       | Some d => if str_truthy d then Some d else None
       | None => None
       end.

(** The message of what was thrown ([err.message]); the message of a fault
    of the run time is the engine's. *)
Variable fault_message : Fault -> string.

Definition message_of (e : Exn) : string :=
  match e with
  | Error m => m
  | Native f => fault_message f
  end.

(** [handleCollapse].  [seen] holds the values the callback closed over,
    [now] the state its updates apply to; the updates of one run are applied
    in order, with no update of another handler in between.  The result is
    the state after the run and the requests and sleeps of the run. *)
Definition handleCollapse (b : Browser) (seen now : AppState) : AppState * Run :=
  if negb (isSubscribed seen) && (MAX_FREE_USES <=? usageCount seen)%nat then
    ({| selectedAtom := selectedAtom now; selectedEntity := selectedEntity now;
        waveParams := waveParams now; isSubscribed := isSubscribed now;
        usageCount := usageCount now; showPaywall := true;
        selfieData := selfieData now; selfieUrl := selfieUrl now;
        state := state now |}, start)
  else
    let collapsing :=
      {| isCollapsing := true; isCollapsed := isCollapsed (state now);
         collapsedImage := collapsedImage (state now);
         explanation := explanation (state now); error := None |} in
    let subject := pickRandomSubject b 0 in
    let baseImage := chosen_base_image (selfieUrl seen) (selfieData seen) in
    let generated :=
      generateQuantumManifestation env
        {| responses := server b; random := Math_random b 3 |}
        (selectedAtom seen) subject (waveParams seen) baseImage start in
    let explained := explainCollapse b 4 (selectedAtom seen) subject in
    match generated with
    | (Normal imageUrl, r) =>
        ({| selectedAtom := selectedAtom now; selectedEntity := subject;
            waveParams := waveParams now; isSubscribed := isSubscribed now;
            usageCount := usageCount now + 1; showPaywall := showPaywall now;
            selfieData := None; selfieUrl := EmptyString;
            state := {| isCollapsing := false; isCollapsed := true;
                        collapsedImage := Some imageUrl;
                        explanation := Some explained;
                        error := error collapsing |} |}, r)
    | (Throw err, r) =>
        let msg :=
          if str_truthy (message_of err)
          then "Quantum decoherence failed: " ++ message_of err
          else "Quantum decoherence failed. Check your Stable Diffusion endpoint and key." in
        ({| selectedAtom := selectedAtom now; selectedEntity := subject;
            waveParams := waveParams now; isSubscribed := isSubscribed now;
            usageCount := usageCount now; showPaywall := showPaywall now;
            selfieData := selfieData now; selfieUrl := selfieUrl now;
            state := {| isCollapsing := false; isCollapsed := isCollapsed collapsing;
                        collapsedImage := collapsedImage collapsing;
                        explanation := explanation collapsing;
                        error := Some msg |} |}, r)
    end.

(** One click after another, each on a fresh render: the callback of a run
    has closed over the state the run before left. *)
Fixpoint collapse_all (runs : list Browser) (s : AppState) : AppState * list Event :=
  match runs with
  | [] => (s, [])
  | b :: rest =>
      let (s1, r) := handleCollapse b s s in
      let (s2, t) := collapse_all rest s1 in
      (s2, (trace r ++ t)%list)
  end.

End App.

(** [Math.floor(r * n)] is an index below [n], as it is for every [r] that
    [Math.random()] returns. *)
Definition index_below {PF : Platform} (r : float) (n : nat) : Prop :=
  exists i : nat,
    array_index (Math_floor (r * number_of_nat n)%float) = Some i /\ i < n.

(** A browser for the examples: every random number is [r]. *)
Definition steady (sv : nat -> FetchResult) (r : float) : Browser :=
  {| server := sv; Math_random := fun _ => r |}.

Definition first_visit : AppState :=
  {| selectedAtom := Hydrogen; selectedEntity := "arctic fox";
     waveParams := Demo.unit_wave; isSubscribed := false; usageCount := 0;
     showPaywall := false; selfieData := None; selfieUrl := EmptyString;
     state := {| isCollapsing := false; isCollapsed := false; collapsedImage := None;
                 explanation := None; error := None |} |}.

Definition engine_message (f : Fault) : string :=
  match f with
  | ReadOfNullish => "Cannot read properties of null"
  | NotAFunction => "not a function"
  | NotPrimitive => "Cannot convert object to primitive value"
  | BodyAlreadyUsed => "body stream already read"
  | NetworkFailure => "Failed to fetch"
  | InvalidJSON => "Unexpected token"
  end.

(** A first-time visitor who typed [url] as the selfie URL. *)
Definition visitor_with_selfie_url (url : string) : AppState :=
  {| selectedAtom := Hydrogen; selectedEntity := "arctic fox";
     waveParams := Demo.unit_wave; isSubscribed := false; usageCount := 0;
     showPaywall := false; selfieData := None; selfieUrl := url;
     state := {| isCollapsing := false; isCollapsed := false; collapsedImage := None;
                 explanation := None; error := None |} |}.

(** * Properties *)

(** ** Values and the response parser *)

Lemma opt_prop_is_prop (v : JSValue) (k : string) : opt_prop v k = prop v k.
Proof. destruct v; reflexivity. Qed.

Lemma present_js_or (a b : JSValue) :
  present (js_or a b) = match present a with Some x => Some x | None => present b end.
Proof. unfold present, js_or. destruct (truthy a) eqn:Ha; [rewrite Ha|]; reflexivity. Qed.

Lemma present_undefined : present JUndefined = None.
Proof. reflexivity. Qed.

Lemma find_truthy_cons (a : JSValue) (l : list JSValue) :
  find truthy (a :: l) = match present a with Some x => Some x | None => find truthy l end.
Proof. unfold present. simpl. destruct (truthy a); reflexivity. Qed.

Lemma index0_of_array_if_present (v : JSValue) :
  array_if_present v -> opt_index0 v = first_of_array v.
Proof.
  intros [H | H]; destruct v; try discriminate; reflexivity.
Qed.

Lemma first_of_non_array (v : JSValue) : isArray v = false -> first_of_array v = JUndefined.
Proof. destruct v; try reflexivity; discriminate. Qed.

Lemma index0_of_array (v : JSValue) : isArray v = true -> opt_index0 v = first_of_array v.
Proof. destruct v; try discriminate; reflexivity. Qed.

(** C4 (as amended).  On every body whose [images] and [output] fields are
    arrays when they are there (as the service's response type declares
    them), [parseImage] yields what section 4.4 describes: the first truthy
    value among the image field, the first element of the images array, the
    first element of the output array, the base64 field of the first
    artifacts element and the b64_json-or-url field of the first data
    element, and nothing otherwise.  In particular a truthy image field wins
    over everything else, and a body that holds only artifacts[0].base64
    yields that value. *)
Theorem parseImage_priority_order :
  (forall data : JSValue,
     array_if_present (opt_prop data "images") ->
     array_if_present (opt_prop data "output") ->
     present (parseImage data) = extractImage_spec data)
  /\ (forall data : JSValue,
        truthy (prop data "image") = true -> parseImage data = prop data "image")
  /\ (forall v : JSValue,
        truthy v = true ->
        parseImage (JObject [("artifacts", JArray [JObject [("base64", v)]])]) = v).
Proof.
  split; [| split].
  - intros data Himages Houtput.
    unfold parseImage, extractImage_spec.
    rewrite !opt_prop_is_prop in *.
    rewrite (index0_of_array_if_present _ Himages), (index0_of_array_if_present _ Houtput).
    rewrite !present_js_or, !find_truthy_cons.
    destruct (present (prop data "image")); [reflexivity|].
    destruct (present (first_of_array (prop data "images"))); [reflexivity|].
    destruct (present (first_of_array (prop data "output"))); [reflexivity|].
    destruct (isArray (prop data "artifacts")) eqn:Ha.
    + rewrite (index0_of_array _ Ha).
      destruct (present (prop (first_of_array (prop data "artifacts")) "base64")); [reflexivity|].
      destruct (isArray (prop data "data")) eqn:Hd.
      * rewrite (index0_of_array _ Hd), present_js_or.
        destruct (present (prop (first_of_array (prop data "data")) "b64_json")); [reflexivity|].
        destruct (present (prop (first_of_array (prop data "data")) "url")); reflexivity.
      * rewrite (first_of_non_array _ Hd). reflexivity.
    + rewrite (first_of_non_array _ Ha). simpl prop at 1. rewrite present_undefined.
      destruct (isArray (prop data "data")) eqn:Hd.
      * rewrite (index0_of_array _ Hd), present_js_or.
        destruct (present (prop (first_of_array (prop data "data")) "b64_json")); [reflexivity|].
        destruct (present (prop (first_of_array (prop data "data")) "url")); reflexivity.
      * rewrite (first_of_non_array _ Hd). reflexivity.
  - intros data H. unfold parseImage. rewrite opt_prop_is_prop. unfold js_or at 1.
    rewrite H. reflexivity.
  - intros v H. unfold parseImage. cbn. unfold js_or. rewrite H. reflexivity.
Qed.

(** C4, the claim as stated, fails: [images] need not be an array.  On the
    body [{images: xyz}] with a string there is no images array to take
    a first element of, and yet [parseImage] finds an image: the first
    character of the string. *)
Lemma parseImage_indexes_a_string :
  present (parseImage (JObject [("images", JString "xyz")])) = Some (JString "x")
  /\ extractImage_spec (JObject [("images", JString "xyz")]) = None.
Proof. split; reflexivity. Qed.

(** C4, witness: the body [{image: a, images: [b]}]. *)
Lemma parseImage_priority_order_witness :
  present (parseImage (JObject [("image", JString "a"); ("images", JArray [JString "b"])]))
  = extractImage_spec (JObject [("image", JString "a"); ("images", JArray [JString "b"])])
  /\ parseImage (JObject [("image", JString "a"); ("images", JArray [JString "b"])])
     = JString "a".
Proof.
  split.
  - apply (proj1 parseImage_priority_order); [left | right]; reflexivity.
  - apply (proj1 (proj2 parseImage_priority_order)). reflexivity.
Defined.

(** ** Prompt builder *)

Section Thresholds.
Local Open Scope float_scope.

(** No number is above 1.5 and below 0.8 at once, so the order in which
    [buildPrompt] tests the two thresholds does not matter. *)
Lemma above_high_not_below_low (x : float) : (1.5 <? x) = true -> (x <? 0.8) = false.
Proof.
  rewrite !FloatAxioms.ltb_spec.
  change (Prim2SF 1.5) with (S754_finite false 6755399441055744 (-52)).
  change (Prim2SF 0.8) with (S754_finite false 7205759403792794 (-53)).
  unfold SFltb, SFcompare.
  destruct (Prim2SF x) as [s | s | | s m e]; try discriminate.
  - destruct s; congruence.
  - destruct s; try discriminate.
    destruct (Z.compare_spec (-52) e), (Z.compare_spec e (-53)); try lia; congruence.
Qed.

(** C5.  The prompt is the sentence written out below, with the subject, the
    two derived adjectives and the atom in it.  The intensity is intense
    when the wavelength is above 1.5, subtle when it is below 0.8 and
    moderate otherwise, also at 1.5 and at 0.8 themselves; the density is
    dense, sparse or flowing by the same thresholds on the amplitude. *)
Theorem buildPrompt_threshold_adjectives :
  forall (atom : AtomType) (subject : EntityType) (params : WaveParams),
  exists intensity density : string,
    buildPrompt atom subject params
    = ("A " ++ subject ++ " materializing from " ++ intensity
       ++ " quantum energy waves, " ++ density
       ++ " streams of turquoise and emerald light converging around "
       ++ atom_name atom
       ++ " atoms. Set in a futuristic physics laboratory with holographic displays and volumetric lighting. Cinematic composition, ray-traced reflections, 8k ultra-detailed, atmospheric depth.")%string
    /\ ((1.5 <? wavelength params) = true -> intensity = "intense"%string)
    /\ ((wavelength params <? 0.8) = true -> intensity = "subtle"%string)
    /\ ((1.5 <? wavelength params) = false -> (wavelength params <? 0.8) = false ->
        intensity = "moderate"%string)
    /\ (wavelength params = 1.5 \/ wavelength params = 0.8 -> intensity = "moderate"%string)
    /\ ((1.5 <? amplitude params) = true -> density = "dense"%string)
    /\ ((amplitude params <? 0.8) = true -> density = "sparse"%string)
    /\ ((1.5 <? amplitude params) = false -> (amplitude params <? 0.8) = false ->
        density = "flowing"%string)
    /\ (amplitude params = 1.5 \/ amplitude params = 0.8 -> density = "flowing"%string).
Proof.
  intros atom subject [wl am]. unfold buildPrompt, prompt_template.
  cbn [wavelength amplitude].
  eexists. eexists. split; [reflexivity|].
  repeat split.
  - intros ->. reflexivity.
  - intros H. destruct (1.5 <? wl) eqn:Hhi.
    + rewrite (above_high_not_below_low _ Hhi) in H. discriminate.
    + rewrite H. reflexivity.
  - intros -> ->. reflexivity.
  - intros [-> | ->]; reflexivity.
  - intros ->. reflexivity.
  - intros H. destruct (1.5 <? am) eqn:Hhi.
    + rewrite (above_high_not_below_low _ Hhi) in H. discriminate.
    + rewrite H. reflexivity.
  - intros -> ->. reflexivity.
  - intros [-> | ->]; reflexivity.
Qed.

(** C5, witness: a long wave of small amplitude, and the two boundaries. *)
Lemma buildPrompt_threshold_adjectives_witness :
  buildPrompt Carbon "arctic fox" {| wavelength := 2; amplitude := 0.5 |}
  = "A arctic fox materializing from intense quantum energy waves, sparse streams of turquoise and emerald light converging around Carbon atoms. Set in a futuristic physics laboratory with holographic displays and volumetric lighting. Cinematic composition, ray-traced reflections, 8k ultra-detailed, atmospheric depth."%string
  /\ buildPrompt Carbon "arctic fox" {| wavelength := 1.5; amplitude := 0.8 |}
     = "A arctic fox materializing from moderate quantum energy waves, flowing streams of turquoise and emerald light converging around Carbon atoms. Set in a futuristic physics laboratory with holographic displays and volumetric lighting. Cinematic composition, ray-traced reflections, 8k ultra-detailed, atmospheric depth."%string.
Proof.
  split.
  - destruct (buildPrompt_threshold_adjectives Carbon "arctic fox"
                {| wavelength := 2; amplitude := 0.5 |})
      as (i & d & E & Hi & _ & _ & _ & _ & Hd & _).
    rewrite E, (Hi eq_refl), (Hd eq_refl). reflexivity.
  - destruct (buildPrompt_threshold_adjectives Carbon "arctic fox"
                {| wavelength := 1.5; amplitude := 0.8 |})
      as (i & d & E & _ & _ & _ & Hi & _ & _ & _ & Hd).
    rewrite E, (Hi (or_introl eq_refl)), (Hd (or_intror eq_refl)). reflexivity.
Defined.

End Thresholds.

(** ** Result normalisation *)

Section Normalisation.
Context {PF : Platform}.

Lemma prefix_of_longer_prefix (a b s : string) :
  prefix (a ++ b) s = true -> prefix a s = true.
Proof.
  revert s. induction a as [| c a IH]; intros s H.
  - destruct s; reflexivity.
  - destruct s as [| c' s]; simpl in *; [discriminate|].
    destruct (ascii_dec c c'); [apply IH; exact H | discriminate].
Qed.

Lemma scheme_starts_with_http (s : string) : has_http_scheme s = true -> prefix "http" s = true.
Proof.
  unfold has_http_scheme. intros H. apply orb_true_iff in H. destruct H as [H | H].
  - apply (prefix_of_longer_prefix "http" "://"). exact H.
  - apply (prefix_of_longer_prefix "http" "s://"). exact H.
Qed.

(** C6 (as amended).  A string that begins with an HTTP(S) scheme (http://
    or https://, in lower case) is returned unchanged; a value that is not a string beginning with the
    characters http is returned as data:image/png;base64, followed by the
    value (by its string form).  The specification's two examples hold. *)
Theorem normalizeResult_url_or_data_reference :
  (forall s : string, has_http_scheme s = true -> normalizeResult (JString s) = Normal s)
  /\ (forall (v : JSValue) (s : string),
        string_startsWith v "http" = false -> ToString v = Normal s ->
        normalizeResult v = Normal ("data:image/png;base64," ++ s))
  /\ normalizeResult (JString "https://x/y.png") = Normal "https://x/y.png"
  /\ normalizeResult (JString "aGVsbG8=") = Normal "data:image/png;base64,aGVsbG8=".
Proof.
  repeat split.
  - intros s H. unfold normalizeResult. cbn [string_startsWith].
    rewrite (scheme_starts_with_http _ H). reflexivity.
  - intros v s Hv Hs. unfold normalizeResult. rewrite Hv, Hs. reflexivity.
Qed.

(** C10.  Only the four characters http decide: a string that begins with
    them is returned as it is, well-formed URL or not, and every other
    string is wrapped, a data reference included. *)
Theorem normalizeResult_decides_by_http_prefix :
  (forall s : string,
     normalizeResult (JString s)
     = Normal (if prefix "http" s then s else "data:image/png;base64," ++ s))
  /\ normalizeResult (JString "httpxyz") = Normal "httpxyz"
  /\ normalizeResult (JString "data:image/png;base64,aGVsbG8=")
     = Normal "data:image/png;base64,data:image/png;base64,aGVsbG8=".
Proof.
  repeat split.
  intros s. unfold normalizeResult. cbn [string_startsWith ToString cbind].
  destruct (prefix "http" s); reflexivity.
Qed.

End Normalisation.

(** ** The request/poll client *)

Section Client.
Context {PF : Platform}.
Variable env : Env.
Variable w : World.

Lemma after_no_polls (r : Run) (req : Request) : after_polls r req 0 = r.
Proof.
  destruct r as [n t]. unfold after_polls, poll_events. cbn.
  rewrite Nat.add_0_r, app_nil_r. reflexivity.
Qed.

Lemma after_polls_add (r : Run) (req : Request) (m n : nat) :
  after_polls (after_polls r req m) req n = after_polls r req (m + n).
Proof.
  unfold after_polls, poll_events. cbn [fetched trace].
  rewrite repeat_app, concat_app, app_assoc, Nat.add_assoc. reflexivity.
Qed.

Lemma processing_is_not_error (v : JSValue) :
  strict_eq_str v "processing" = true -> strict_eq_str v "error" = false.
Proof.
  destruct v; try discriminate. cbn. intros H. apply String.eqb_eq in H. subst s.
  reflexivity.
Qed.

Lemma processing_is_not_failed (v : JSValue) :
  strict_eq_str v "processing" = true -> strict_eq_str v "failed" = false.
Proof.
  destruct v; try discriminate. cbn. intros H. apply String.eqb_eq in H. subst s.
  reflexivity.
Qed.

Lemma urlWithKey_of_string (u0 : string) : exists u, urlWithKey env (JString u0) = Normal u.
Proof.
  unfold urlWithKey. destruct (str_truthy (SD_API_KEY env)); cbn.
  - destruct (includes u0 "key="); cbn; eexists; reflexivity.
  - eexists; reflexivity.
Qed.

(** One attempt of the loop whose reply is a JSON body without an error
    status or field: the loop stops on a body that is not processing and
    holds no image, and goes on otherwise. *)
Lemma poll_loop_attempt (n : nat) (init fu image last : JSValue) (r : Run)
  (u text : string) (d : JSValue) :
  truthy image = false ->
  urlWithKey env fu = Normal u ->
  responses w (fetched r) = Replied {| reply_ok := true; reply_body := Some text |} ->
  JSON_parse text = Some d ->
  strict_eq_str (opt_prop d "status") "error" = false ->
  truthy (opt_prop d "error") = false ->
  poll_loop env w (S n) init fu image last r
  = if negb (strict_eq_str (opt_prop d "status") "processing") && negb (truthy (parseImage d))
    then (Normal (parseImage d, d), after_polls r (poll_request env init u) 1)
    else poll_loop env w n init fu (parseImage d) d (after_polls r (poll_request env init u) 1).
Proof.
  intros Himage Hurl Hreply Hparse Hstatus Herror.
  cbn [poll_loop]. rewrite Himage.
  unfold bind, sleep, lift, fetch. cbn [fetched trace]. rewrite Hurl, Hreply.
  unfold Response_json, Response_text.
  cbn [ok content bodyUsed reply_ok reply_body negb].
  rewrite Hparse, Hstatus, Herror. cbn [orb].
  replace (after_polls r (poll_request env init u) 1)
    with {| fetched := S (fetched r);
            trace := (trace r ++ [ESleep delayMs]) ++ [EFetch (poll_request env init u)] |}.
  - destruct (negb (strict_eq_str (opt_prop d "status") "processing")
              && negb (truthy (parseImage d))); reflexivity.
  - unfold after_polls, poll_events. cbn. rewrite <- app_assoc, Nat.add_1_r. reflexivity.
Qed.

(** *** Polls that end the call *)

(** A poll reply whose status is error, or that carries an error field,
    fails the call there with the provider's message: no image is looked
    for in that body and no further poll is made. *)
Lemma poll_loop_provider_error (n : nat) (init fu image last : JSValue) (r : Run)
  (u text : string) (d : JSValue) :
  truthy image = false ->
  urlWithKey env fu = Normal u ->
  responses w (fetched r) = Replied {| reply_ok := true; reply_body := Some text |} ->
  JSON_parse text = Some d ->
  strict_eq_str (opt_prop d "status") "error" || truthy (opt_prop d "error") = true ->
  poll_loop env w (S n) init fu image last r
  = (Throw (new_Error (js_or (js_or (opt_prop d "message") (opt_prop d "error"))
                             (JString "Stable Diffusion polling error"))),
     after_polls r (poll_request env init u) 1).
Proof.
  intros Himage Hurl Hreply Hparse Herror.
  cbn [poll_loop]. rewrite Himage.
  unfold bind, sleep, lift, fetch, throw. cbn [fetched trace]. rewrite Hurl, Hreply.
  unfold Response_json, Response_text.
  cbn [ok content bodyUsed reply_ok reply_body negb].
  rewrite Hparse, Herror.
  unfold after_polls, poll_events. cbn. rewrite <- app_assoc, Nat.add_1_r. reflexivity.
Qed.

(** A poll reply with a failure status fails the call there, with the text
    of the reply in the message. *)
Lemma poll_loop_transport_error (n : nat) (init fu image last : JSValue) (r : Run)
  (u text : string) :
  truthy image = false ->
  urlWithKey env fu = Normal u ->
  responses w (fetched r) = Replied {| reply_ok := false; reply_body := Some text |} ->
  poll_loop env w (S n) init fu image last r
  = (Throw (Error ("Stable Diffusion poll failed: " ++ text)),
     after_polls r (poll_request env init u) 1).
Proof.
  intros Himage Hurl Hreply.
  cbn [poll_loop]. rewrite Himage.
  unfold bind, sleep, lift, fetch, throw. cbn [fetched trace]. rewrite Hurl, Hreply.
  unfold Response_text. cbn [ok content bodyUsed reply_ok reply_body negb fst].
  unfold after_polls, poll_events. cbn. rewrite <- app_assoc, Nat.add_1_r. reflexivity.
Qed.

(** A poll reply with a success status and a body that is not JSON fails
    the call there, but the handler reads the body a second time: what is
    thrown is that fault, and the text of the reply is lost. *)
Lemma poll_loop_unparsable_body (n : nat) (init fu image last : JSValue) (r : Run)
  (u text : string) :
  truthy image = false ->
  urlWithKey env fu = Normal u ->
  responses w (fetched r) = Replied {| reply_ok := true; reply_body := Some text |} ->
  JSON_parse text = None ->
  poll_loop env w (S n) init fu image last r
  = (Throw (Native BodyAlreadyUsed), after_polls r (poll_request env init u) 1).
Proof.
  intros Himage Hurl Hreply Hparse.
  cbn [poll_loop]. rewrite Himage.
  unfold bind, sleep, lift, fetch, throw. cbn [fetched trace]. rewrite Hurl, Hreply.
  unfold Response_json, Response_text.
  cbn [ok content bodyUsed reply_ok reply_body negb fst].
  rewrite Hparse. cbn [content bodyUsed fst].
  unfold after_polls, poll_events. cbn. rewrite <- app_assoc, Nat.add_1_r. reflexivity.
Qed.

(** While the server keeps answering that the job is running, the loop
    keeps polling: [m] such replies use up [m] attempts. *)
Lemma poll_loop_while_processing (d : nat -> JSValue) (init fu : JSValue) (u : string) :
  urlWithKey env fu = Normal u ->
  forall (m n : nat) (image last : JSValue) (r : Run),
    truthy image = false ->
    (forall j, fetched r <= j < fetched r + m ->
               replies_json w j (d j) /\ still_processing (d j) /\ no_error_field (d j)) ->
    exists image' : JSValue,
      truthy image' = false
      /\ poll_loop env w (m + n) init fu image last r
         = poll_loop env w n init fu image'
             (match m with O => last | S m' => d (fetched r + m') end)
             (after_polls r (poll_request env init u) m).
Proof.
  intros Hurl. induction m as [| m IH]; intros n image last r Himage Hall.
  - exists image. rewrite after_no_polls. split; [exact Himage | reflexivity].
  - destruct (Hall (fetched r)) as ((text & Hreply & Hparse) & (Hproc & Hnone) & Herr);
      [lia|].
    cbn [Nat.add].
    rewrite (poll_loop_attempt _ _ _ _ _ _ _ _ _ Himage Hurl Hreply Hparse
               (processing_is_not_error _ Hproc) Herr).
    rewrite Hproc. cbn [negb andb].
    destruct (IH n (parseImage (d (fetched r))) (d (fetched r))
                (after_polls r (poll_request env init u) 1) Hnone) as (image' & Hfalsy & Heq).
    + intros j Hj. cbn [after_polls fetched] in Hj. apply Hall. lia.
    + exists image'. split; [exact Hfalsy|].
      rewrite Heq, after_polls_add. cbn [after_polls fetched Nat.add].
      destruct m as [| m'].
      * rewrite Nat.add_0_r. reflexivity.
      * replace (fetched r + 1 + m') with (fetched r + S m') by lia. reflexivity.
Qed.

Lemma status_read_needs_object (d : JSValue) (lit : string) :
  strict_eq_str (opt_prop d "status") lit = true ->
  nullish d = false /\ prop d "status" = opt_prop d "status".
Proof. destruct d; try discriminate. split; reflexivity. Qed.

(** An accepted job sends the call into the polling loop, and what the loop
    ends with decides the call. *)
Lemma requestAndPoll_enters_polling (endpoint : string) (payload d0 : JSValue) (u0 : string) :
  replies_json w 0 d0 ->
  accepted_for_polling d0 u0 ->
  requestAndPoll env w endpoint payload start
  = match poll_loop env w maxAttempts d0 (JString u0) (parseImage d0) d0
            {| fetched := 1;
               trace := [EFetch {| url := endpoint; method := "POST";
                                   headers := request_headers env;
                                   body := JSON_stringify payload |}] |} with
    | (Normal polled, r) =>
        if truthy (fst polled) then (normalizeResult (fst polled), r)
        else (Throw (Error ("No image returned from Stable Diffusion after polling. Payload: "
                            ++ substring 0 400 (JSON_stringify (snd polled)))), r)
    | (Throw e, r) => (Throw e, r)
    end.
Proof.
  intros (text & Hreply & Hparse) ((Hproc & Hnone) & Herr & Hurl & Hnonempty).
  destruct (status_read_needs_object _ _ Hproc) as (Hobj & Hstatus).
  unfold no_error_field in Herr. rewrite opt_prop_is_prop in Herr, Hurl.
  rewrite <- Hstatus in Hproc.
  unfold requestAndPoll, bind, fetch, start, lift, dot.
  cbn [fetched trace app]. rewrite Hreply.
  unfold Response_json, Response_text.
  cbn [ok content bodyUsed reply_ok reply_body negb fst].
  rewrite Hparse, Hobj.
  rewrite (processing_is_not_error _ Hproc), (processing_is_not_failed _ Hproc), Herr.
  cbn [orb]. rewrite Hnone, Hproc, Hurl. cbn [negb andb truthy].
  assert (Hu : (u0 =? EmptyString) = false) by (apply String.eqb_neq; exact Hnonempty).
  rewrite Hu. cbn [negb].
  destruct (poll_loop env w maxAttempts d0 (JString u0) (parseImage d0) d0 _)
    as [[polled | e] r]; [| reflexivity].
  destruct (truthy (fst polled)) eqn:Hfound; cbn [negb]; unfold throw, ret; [| reflexivity].
  rewrite Hfound. reflexivity.
Qed.

(** The call gives up when the loop ends without an image. *)
Lemma requestAndPoll_gives_up (endpoint : string) (payload d0 : JSValue) (u0 : string)
  (image last : JSValue) (r : Run) :
  replies_json w 0 d0 ->
  accepted_for_polling d0 u0 ->
  poll_loop env w maxAttempts d0 (JString u0) (parseImage d0) d0
    {| fetched := 1;
       trace := [EFetch {| url := endpoint; method := "POST";
                           headers := request_headers env;
                           body := JSON_stringify payload |}] |}
  = (Normal (image, last), r) ->
  truthy image = false ->
  requestAndPoll env w endpoint payload start
  = (Throw (Error ("No image returned from Stable Diffusion after polling. Payload: "
                   ++ substring 0 400 (JSON_stringify last))), r).
Proof.
  intros Hreply Haccepted Hloop Hfalsy.
  rewrite (requestAndPoll_enters_polling _ _ _ _ Hreply Haccepted), Hloop.
  cbn [fst snd]. rewrite Hfalsy. reflexivity.
Qed.

(** Whatever the arguments, a call is one [requestAndPoll]. *)
Lemma call_is_requestAndPoll (atom : AtomType) (entity : EntityType) (params : WaveParams)
  (baseImage : option string) :
  exists (endpoint : string) (payload : JSValue),
    call env w atom entity params baseImage
    = requestAndPoll env w endpoint payload start.
Proof.
  unfold call, generateQuantumManifestation.
  destruct baseImage as [b |]; [destruct (str_truthy b) |]; eexists; eexists; reflexivity.
Qed.

(** *** The trace only grows *)

Lemma grows_ret {A : Type} (a : A) : grows (ret a).
Proof. intros r. exists []. cbn. rewrite app_nil_r. reflexivity. Qed.

Lemma grows_throw {A : Type} (e : Exn) : grows (@throw A e).
Proof. intros r. exists []. cbn. rewrite app_nil_r. reflexivity. Qed.

Lemma grows_lift {A : Type} (c : Completion A) : grows (lift c).
Proof. intros r. exists []. cbn. rewrite app_nil_r. reflexivity. Qed.

Lemma grows_sleep (ms : Z) : grows (sleep ms).
Proof. intros r. exists [ESleep ms]. reflexivity. Qed.

Lemma grows_fetch (req : Request) : grows (fetch w req).
Proof.
  intros r. exists [EFetch req]. unfold fetch.
  destruct (responses w (fetched r)); reflexivity.
Qed.

Lemma grows_bind {A B : Type} (m : Async A) (k : A -> Async B) :
  grows m -> (forall a, grows (k a)) -> grows (bind m k).
Proof.
  intros Hm Hk r. unfold bind. destruct (Hm r) as (more & Hmore).
  destruct (m r) as [[a | e] r1]; cbn [snd] in *.
  - destruct (Hk a r1) as (more' & Hmore'). exists (more ++ more')%list.
    rewrite Hmore', Hmore, app_assoc. reflexivity.
  - exists more. exact Hmore.
Qed.

Create HintDb grows.
#[local] Hint Resolve grows_ret grows_throw grows_lift grows_sleep grows_fetch : grows.

Ltac grows_step :=
  match goal with
  | |- grows (bind _ _) => apply grows_bind; [| intros ?]
  | |- grows (if ?c then _ else _) => destruct c
  | |- grows (let (_, _) := ?p in _) => destruct p
  | |- grows (match ?c with Normal _ => _ | Throw _ => _ end) => destruct c
  | |- grows _ => solve [auto with grows]
  end.

Lemma grows_poll_loop (remaining : nat) (init fu image last : JSValue) :
  grows (poll_loop env w remaining init fu image last).
Proof.
  revert image last. induction remaining as [| n IH]; intros image last; cbn [poll_loop].
  - auto with grows.
  - repeat (grows_step || apply IH).
Qed.

Lemma first_fetch_heads_trace {A : Type} (req : Request) (k : Response -> Async A) :
  (forall response, grows (k response)) ->
  exists rest : list Event, trace (snd (bind (fetch w req) k start)) = EFetch req :: rest.
Proof.
  intros Hk. unfold bind, fetch. cbn [fetched trace start app].
  destruct (responses w 0) as [| rep].
  - exists []. reflexivity.
  - match goal with
    | |- context [k ?resp ?r] => destruct (Hk resp r) as (more & Hmore)
    end.
    exists more. rewrite Hmore. reflexivity.
Qed.

Lemma requestAndPoll_starts_with_request (endpoint : string) (payload : JSValue) :
  exists rest : list Event,
    trace (snd (requestAndPoll env w endpoint payload start))
    = EFetch {| url := endpoint; method := "POST"; headers := request_headers env;
                body := JSON_stringify payload |} :: rest.
Proof.
  unfold requestAndPoll. apply first_fetch_heads_trace.
  intros response. repeat (grows_step || apply grows_poll_loop).
Qed.

(** *** A result comes from an extracted image *)

Lemma json_of_fresh_response (b : bool) (rep : HttpReply) (data : JSValue) (used : Response) :
  Response_json {| ok := b; content := reply_body rep; bodyUsed := false |}
  = (Normal data, used) ->
  JSON_parse (reply_text rep) = Some data.
Proof.
  unfold Response_json, Response_text, reply_text. cbn [content bodyUsed].
  destruct (reply_body rep) as [text |].
  - destruct (JSON_parse text); [congruence | discriminate].
  - destruct (JSON_parse EmptyString); [congruence | discriminate].
Qed.

(** A body that does not parse leaves nothing to read: the response is used
    up, unless it had no body at all. *)
Lemma text_after_failed_json (b : bool) (rep : HttpReply) (e : Exn) (used : Response) :
  Response_json {| ok := b; content := reply_body rep; bodyUsed := false |}
  = (Throw e, used) ->
  fst (Response_text used)
  = match reply_body rep with
    | Some _ => Throw (Native BodyAlreadyUsed)
    | None => Normal EmptyString
    end.
Proof.
  unfold Response_json, Response_text. cbn [content bodyUsed].
  destruct (reply_body rep) as [text |].
  - destruct (JSON_parse text); [discriminate|]. intros H. inversion H. reflexivity.
  - destruct (JSON_parse EmptyString); [discriminate|]. intros H. inversion H. reflexivity.
Qed.

Lemma poll_loop_found (remaining : nat) (init fu : JSValue) :
  forall (image last : JSValue) (r r' : Run) (polled : JSValue * JSValue),
    poll_loop env w remaining init fu image last r = (Normal polled, r') ->
    truthy image = false ->
    truthy (fst polled) = true ->
    exists k : nat,
      fetched r <= k < fetched r + remaining /\ k < fetched r'
      /\ extracted_from w k (fst polled).
Proof.
  induction remaining as [| n IH]; intros image last r r' polled Hrun Himage Hfound;
    cbn [poll_loop] in Hrun.
  - unfold ret in Hrun. inversion Hrun. subst. cbn [fst] in Hfound. congruence.
  - rewrite Himage in Hrun.
    unfold bind, sleep, lift, fetch, throw in Hrun. cbn [fetched trace] in Hrun.
    destruct (urlWithKey env fu) as [u |]; [| discriminate].
    destruct (responses w (fetched r)) as [| rep] eqn:Hreply; [discriminate|].
    cbn [ok] in Hrun.
    destruct (reply_ok rep); cbn [negb] in Hrun.
    2:{ destruct (fst (Response_text _)); discriminate. }
    destruct (Response_json _) as [[data | e] used] eqn:Hjson.
    2:{ destruct (fst (Response_text used)); discriminate. }
    apply json_of_fresh_response in Hjson.
    destruct (strict_eq_str (opt_prop data "status") "error" || truthy (opt_prop data "error"));
      [discriminate|].
    destruct (negb (strict_eq_str (opt_prop data "status") "processing")
              && negb (truthy (parseImage data))) eqn:Hbreak.
    + unfold ret in Hrun. inversion Hrun. subst. cbn [fst] in Hfound.
      rewrite Hfound in Hbreak. rewrite andb_false_r in Hbreak. discriminate.
    + destruct (truthy (parseImage data)) eqn:Himage'.
      * assert (Hpolled : polled = (parseImage data, data) /\ fetched r' = S (fetched r)).
        { destruct n; cbn [poll_loop] in Hrun; [| rewrite Himage' in Hrun];
            unfold ret in Hrun; inversion Hrun; split; reflexivity. }
        destruct Hpolled as (-> & Hfetched).
        exists (fetched r). repeat split; try lia.
        exists rep, data. repeat split; assumption.
      * destruct (IH _ _ _ _ _ Hrun Himage' Hfound) as (k & Hk & Hlt & Hex).
        cbn [fetched] in Hk. exists k. repeat split; try lia; assumption.
Qed.

Lemma requestAndPoll_result (endpoint : string) (payload : JSValue) (result : string) (r : Run) :
  requestAndPoll env w endpoint payload start = (Normal result, r) ->
  exists (k : nat) (image : JSValue),
    k <= maxAttempts /\ k < fetched r
    /\ extracted_from w k image
    /\ normalizeResult image = Normal result.
Proof.
  unfold requestAndPoll, bind, fetch, lift, start. cbn [fetched trace app]. intros Hrun.
  destruct (responses w 0) as [| rep] eqn:Hreply; [discriminate|].
  cbn [ok] in Hrun. destruct (reply_ok rep); cbn [negb] in Hrun.
  2:{ destruct (fst (Response_text _)); discriminate. }
  destruct (Response_json _) as [[d0 | e] used] eqn:Hjson; cbn [fst] in Hrun; [| discriminate].
  apply json_of_fresh_response in Hjson.
  destruct (dot d0 "status") as [status |]; [| discriminate].
  destruct (strict_eq_str status "error" || strict_eq_str status "failed"
            || truthy (prop d0 "error")).
  { destruct (truthy (opt_prop (opt_prop d0 "error_log") "error")); [| discriminate].
    destruct (ToString (js_or _ (JString "Generation failed"))); [| discriminate].
    destruct (ToString (opt_prop _ "error")); discriminate. }
  destruct (negb (truthy (parseImage d0))
            && strict_eq_str (prop d0 "status") "processing"
            && truthy (prop d0 "fetch_result")) eqn:Hpoll.
  - destruct (poll_loop env w maxAttempts d0 _ _ d0 _) as [[polled | e] r1] eqn:Hloop;
      [| discriminate].
    destruct (truthy (fst polled)) eqn:Hfound; cbn [negb] in Hrun; unfold throw, ret in Hrun;
      [| discriminate].
    rewrite Hfound in Hrun. cbn [negb] in Hrun. inversion Hrun. subst r1.
    apply andb_true_iff in Hpoll. destruct Hpoll as (Hpoll & _).
    apply andb_true_iff in Hpoll. destruct Hpoll as (Hnone & _).
    apply negb_true_iff in Hnone.
    destruct (poll_loop_found _ _ _ _ _ _ _ _ Hloop Hnone Hfound) as (k & Hk & Hlt & Hex).
    cbn [fetched] in Hk. exists k, (fst polled). repeat split; try lia; assumption.
  - unfold ret in Hrun. destruct (truthy (parseImage d0)) eqn:Hfound; cbn [negb] in Hrun;
      [| discriminate].
    inversion Hrun. exists 0, (parseImage d0). cbn [fetched].
    repeat split; try lia; try assumption.
    exists rep, d0. repeat split; assumption.
Qed.

Section Scenarios.
Variables (atom : AtomType) (entity : EntityType) (params : WaveParams)
          (baseImage : option string).

(** C2 (as amended).  The initial reply accepts the job (status processing,
    a fetch-result URL, no image, no error field) and each of the six poll
    replies says the job is still processing, with no image and no error
    field.  Then the call polls exactly six times, sleeping 5000 before each
    poll, and fails with the message that embeds the first 400 characters
    of the sixth body. *)
Theorem polling_gives_up_after_six_attempts (d0 : JSValue) (u0 : string) (d : nat -> JSValue) :
  replies_json w 0 d0 ->
  accepted_for_polling d0 u0 ->
  (forall k, 1 <= k <= 6 ->
             replies_json w k (d k) /\ still_processing (d k) /\ no_error_field (d k)) ->
  exists req0 reqp : Request,
    call env w atom entity params baseImage
    = (Throw (Error ("No image returned from Stable Diffusion after polling. Payload: "
                     ++ substring 0 400 (JSON_stringify (d 6)))),
       {| fetched := 7; trace := EFetch req0 :: poll_events reqp 6 |}).
Proof.
  intros Hreply Haccepted Hall. change 6 with maxAttempts in *.
  destruct (call_is_requestAndPoll atom entity params baseImage)
    as (endpoint & payload & ->).
  destruct (urlWithKey_of_string u0) as (u & Hu).
  pose (r1 := {| fetched := 1;
                 trace := [EFetch {| url := endpoint; method := "POST";
                                     headers := request_headers env;
                                     body := JSON_stringify payload |}] |}).
  destruct (poll_loop_while_processing d d0 (JString u0) u Hu maxAttempts 0
              (parseImage d0) d0 r1) as (image' & Hfalsy & Hloop).
  - apply Haccepted.
  - intros j Hj. apply Hall. unfold r1, maxAttempts in *. cbn [fetched] in Hj. lia.
  - eexists. exists (poll_request env d0 u).
    apply (requestAndPoll_gives_up _ _ _ _ image' (d maxAttempts) _ Hreply Haccepted);
      [| exact Hfalsy].
    exact Hloop.
Qed.

(** C3.  The job was accepted, the polls before the k-th all said
    processing, and the k-th reply (k = 1, ..., 6) is a JSON body whose
    status is not processing, with no image, no error status and no error
    field.  Then the call stops there: it has polled exactly k times and
    fails with the message that embeds the first 400 characters of that
    k-th body. *)
Theorem polling_stops_at_first_finished_reply_without_image
  (d0 : JSValue) (u0 : string) (d : nat -> JSValue) (k : nat) :
  replies_json w 0 d0 ->
  accepted_for_polling d0 u0 ->
  1 <= k <= 6 ->
  (forall j, 1 <= j < k ->
             replies_json w j (d j) /\ still_processing (d j) /\ no_error_field (d j)) ->
  replies_json w k (d k) ->
  strict_eq_str (opt_prop (d k) "status") "processing" = false ->
  truthy (parseImage (d k)) = false ->
  strict_eq_str (opt_prop (d k) "status") "error" = false ->
  no_error_field (d k) ->
  exists req0 reqp : Request,
    call env w atom entity params baseImage
    = (Throw (Error ("No image returned from Stable Diffusion after polling. Payload: "
                     ++ substring 0 400 (JSON_stringify (d k)))),
       {| fetched := S k; trace := EFetch req0 :: poll_events reqp k |}).
Proof.
  intros Hreply Haccepted Hk Hbefore (text & Hkreply & Hkparse) Hstatus Hnone Hnoerr Hfield.
  destruct (call_is_requestAndPoll atom entity params baseImage)
    as (endpoint & payload & ->).
  destruct (urlWithKey_of_string u0) as (u & Hu).
  pose (r1 := {| fetched := 1;
                 trace := [EFetch {| url := endpoint; method := "POST";
                                     headers := request_headers env;
                                     body := JSON_stringify payload |}] |}).
  change 6 with maxAttempts in Hk.
  destruct k as [| m]; [lia|].
  destruct (poll_loop_while_processing d d0 (JString u0) u Hu m (S (maxAttempts - S m))
              (parseImage d0) d0 r1) as (image' & Hfalsy & Hloop).
  - apply Haccepted.
  - intros j Hj. apply Hbefore. unfold r1 in Hj. cbn [fetched] in Hj. lia.
  - eexists. exists (poll_request env d0 u).
    apply (requestAndPoll_gives_up _ _ _ _ (parseImage (d (S m))) (d (S m)) _
             Hreply Haccepted); [| exact Hnone].
    replace maxAttempts with (m + S (maxAttempts - S m)) at 1 by (unfold maxAttempts in *; lia).
    fold r1. rewrite Hloop.
    rewrite (poll_loop_attempt _ _ _ _ _ (after_polls r1 (poll_request env d0 u) m)
               u text (d (S m)) Hfalsy Hu Hkreply Hkparse Hnoerr Hfield).
    rewrite Hstatus, Hnone. cbn [negb andb]. rewrite after_polls_add.
    unfold after_polls, r1. cbn [fetched trace app]. rewrite Nat.add_1_r. reflexivity.
Qed.

(** C1.  A call returns a result only when [parseImage] found a truthy image
    in the body of the initial reply (k = 0) or of one of the at most six
    poll replies the call read (k = 1, ..., 6), and the result is that
    image, normalised.  When no such body holds an image, the call throws. *)
Theorem result_only_from_an_extracted_image :
  (forall (result : string) (r : Run),
     call env w atom entity params baseImage = (Normal result, r) ->
     exists (k : nat) (image : JSValue),
       k <= maxAttempts /\ k < fetched r
       /\ extracted_from w k image
       /\ normalizeResult image = Normal result)
  /\ ((forall (k : nat) (image : JSValue), k <= maxAttempts -> ~ extracted_from w k image) ->
      exists e : Exn, fst (call env w atom entity params baseImage) = Throw e).
Proof.
  destruct (call_is_requestAndPoll atom entity params baseImage)
    as (endpoint & payload & ->).
  split.
  - intros result r. apply requestAndPoll_result.
  - intros Hnone.
    destruct (requestAndPoll env w endpoint payload start) as [[result | e] r] eqn:Hrun.
    + destruct (requestAndPoll_result _ _ _ _ Hrun) as (k & image & Hk & _ & Hex & _).
      destruct (Hnone k image Hk Hex).
    + exists e. reflexivity.
Qed.

Lemma header_value_set_prop (name value : string) (hs : list (string * string)) :
  header_value name (set_prop name value hs) = Some value.
Proof.
  unfold header_value. induction hs as [| [k v] hs IH]; cbn.
  - rewrite String.eqb_refl. reflexivity.
  - destruct (k =? name) eqn:Hk; cbn; rewrite Hk; [reflexivity | exact IH].
Qed.

Lemma header_value_insert_index (n : N) (name value : string) (hs : list (string * string)) :
  existsb (fun kv => fst kv =? name) hs = false ->
  header_value name (insert_index n name value hs) = Some value.
Proof.
  unfold header_value. induction hs as [| [k v] hs IH]; cbn [insert_index existsb fst].
  - intros _. cbn. rewrite String.eqb_refl. reflexivity.
  - intros Hnew. apply orb_false_iff in Hnew. destruct Hnew as (Hk & Hrest).
    destruct (index_key k) as [n' |]; [destruct (n' <? n)%N |];
      cbn [find fst]; rewrite ?Hk, ?String.eqb_refl; try reflexivity.
    apply IH, Hrest.
Qed.

(** An assignment is read back under every name but __proto__, under which
    nothing is stored. *)
Lemma header_value_assign (name value : string) (hs : list (string * string)) :
  name <> "__proto__" -> header_value name (assign name value hs) = Some value.
Proof.
  intros Hname. unfold assign. apply String.eqb_neq in Hname. rewrite Hname.
  destruct (index_key name) as [n |]; [| apply header_value_set_prop].
  destruct (existsb (fun kv => fst kv =? name) hs) eqn:Hold.
  - apply header_value_set_prop.
  - apply header_value_insert_index, Hold.
Qed.

Lemma authorization_is_not_proto (name : string) :
  toLowerCase name = "authorization" -> name <> "__proto__".
Proof. intros H ->. discriminate. Qed.

(** X21.  The first thing a call does is the initial request.  With a key
    and a header name configured, that request carries the header with the
    value Bearer followed by the key when the name is Authorization in any
    letter case, and the key itself under any other name but __proto__; with
    the key or the name blank, and also under the name __proto__, it carries
    the two content headers and nothing else. *)
Theorem credential_header_logic :
  exists (req : Request) (rest : list Event),
    trace (snd (call env w atom entity params baseImage)) = EFetch req :: rest
    /\ (SD_API_KEY env <> EmptyString -> SD_API_KEY_HEADER env <> EmptyString ->
        toLowerCase (SD_API_KEY_HEADER env) = toLowerCase "Authorization" ->
        header_value (SD_API_KEY_HEADER env) (headers req)
        = Some ("Bearer " ++ SD_API_KEY env))
    /\ (SD_API_KEY env <> EmptyString -> SD_API_KEY_HEADER env <> EmptyString ->
        toLowerCase (SD_API_KEY_HEADER env) <> toLowerCase "Authorization" ->
        SD_API_KEY_HEADER env <> "__proto__" ->
        header_value (SD_API_KEY_HEADER env) (headers req) = Some (SD_API_KEY env))
    /\ (SD_API_KEY env = EmptyString \/ SD_API_KEY_HEADER env = EmptyString
        \/ SD_API_KEY_HEADER env = "__proto__" ->
        headers req
        = [("Content-Type", "application/json"); ("Accept", "application/json")]).
Proof.
  destruct (call_is_requestAndPoll atom entity params baseImage)
    as (endpoint & payload & ->).
  destruct (requestAndPoll_starts_with_request endpoint payload) as (rest & Htrace).
  eexists. exists rest. split; [exact Htrace|].
  cbn [headers]. unfold request_headers, str_truthy.
  split; [| split].
  - intros Hkey Hname Hauth.
    change (toLowerCase "Authorization") with "authorization" in Hauth.
    pose proof (authorization_is_not_proto _ Hauth) as Hproto.
    apply String.eqb_neq in Hkey, Hname. rewrite Hkey, Hname. cbn [negb andb].
    rewrite Hauth, String.eqb_refl. apply header_value_assign, Hproto.
  - intros Hkey Hname Hother Hproto.
    apply String.eqb_neq in Hkey, Hname. rewrite Hkey, Hname. cbn [negb andb].
    change (toLowerCase "Authorization") with "authorization" in Hother.
    apply String.eqb_neq in Hother. rewrite Hother. apply header_value_assign, Hproto.
  - intros [Hblank | [Hblank | Hproto]].
    + rewrite Hblank. reflexivity.
    + rewrite Hblank. cbn [String.eqb negb]. rewrite andb_false_r. reflexivity.
    + rewrite Hproto. unfold assign. cbn [String.eqb Ascii.eqb Bool.eqb andb].
      destruct (SD_API_KEY env =? EmptyString); reflexivity.
Qed.

End Scenarios.

End Client.

(** ** The paths of a call *)

Section Paths.
Context {PF : Platform}.
Variables (env : Env) (w : World).
Variables (atom : AtomType) (entity : EntityType) (params : WaveParams)
          (baseImage : option string).

Lemma poll_loop_done (n : nat) (init fu image last : JSValue) (r : Run) :
  truthy image = true ->
  poll_loop env w n init fu image last r = (Normal (image, last), r).
Proof. intros H. destruct n; cbn [poll_loop]; [| rewrite H]; reflexivity. Qed.

Lemma polled_run_after (req0 reqp : Request) (m : nat) :
  after_polls (after_polls (one_request req0) reqp m) reqp 1 = polled_run req0 reqp (S m).
Proof.
  rewrite after_polls_add. unfold after_polls, polled_run, one_request.
  cbn [fetched trace app]. rewrite Nat.add_1_r. reflexivity.
Qed.

(** Up to the k-th poll: the call is what the loop makes of that poll and
    of the attempts left. *)
Lemma requestAndPoll_reaches_attempt (endpoint : string) (payload : JSValue)
  (d0 : JSValue) (u0 : string) (d : nat -> JSValue) (m : nat) :
  polls_until w d0 u0 d (S m) ->
  exists (u : string) (image last : JSValue),
    urlWithKey env (JString u0) = Normal u
    /\ truthy image = false
    /\ requestAndPoll env w endpoint payload start
       = match poll_loop env w (S (maxAttempts - S m)) d0 (JString u0) image last
                 (after_polls
                    (one_request {| url := endpoint; method := "POST";
                                    headers := request_headers env;
                                    body := JSON_stringify payload |})
                    (poll_request env d0 u) m) with
         | (Normal polled, r) =>
             if truthy (fst polled) then (normalizeResult (fst polled), r)
             else (Throw (Error ("No image returned from Stable Diffusion after polling. Payload: "
                                 ++ substring 0 400 (JSON_stringify (snd polled)))), r)
         | (Throw e, r) => (Throw e, r)
         end.
Proof.
  intros (Hreply & Haccepted & Hk & Hbefore).
  destruct (urlWithKey_of_string env u0) as (u & Hu).
  destruct (poll_loop_while_processing env w d d0 (JString u0) u Hu m (S (maxAttempts - S m))
              (parseImage d0) d0
              (one_request {| url := endpoint; method := "POST";
                              headers := request_headers env;
                              body := JSON_stringify payload |}))
    as (image & Hfalsy & Hloop).
  - apply Haccepted.
  - intros j Hj. apply Hbefore. cbn [one_request fetched] in Hj. lia.
  - exists u, image, (match m with O => d0 | S m' => d (1 + m') end).
    split; [exact Hu|]. split; [exact Hfalsy|].
    rewrite (requestAndPoll_enters_polling env w _ _ _ _ Hreply Haccepted).
    replace maxAttempts with (m + S (maxAttempts - S m)) at 1
      by (unfold maxAttempts; lia).
    unfold one_request in *. rewrite Hloop. reflexivity.
Qed.

(** X5.  The job was accepted, the polls before the k-th said processing, and
    the k-th reply holds an image (and no error status or field).  Then the
    call returns that image, normalised, after exactly k polls. *)
Theorem polling_returns_the_first_image
  (d0 : JSValue) (u0 : string) (d : nat -> JSValue) (k : nat) :
  polls_until w d0 u0 d k ->
  replies_json w k (d k) ->
  strict_eq_str (opt_prop (d k) "status") "error" = false ->
  no_error_field (d k) ->
  truthy (parseImage (d k)) = true ->
  exists req0 reqp : Request,
    call env w atom entity params baseImage
    = (normalizeResult (parseImage (d k)), polled_run req0 reqp k).
Proof.
  intros Huntil (text & Hkreply & Hkparse) Hnoerr Hfield Himage.
  destruct (call_is_requestAndPoll env w atom entity params baseImage)
    as (endpoint & payload & ->).
  destruct k as [| m]; [destruct Huntil as (_ & _ & Hk & _); lia|].
  destruct (requestAndPoll_reaches_attempt endpoint payload _ _ _ _ Huntil)
    as (u & image & last & Hu & Hfalsy & ->).
  eexists. exists (poll_request env d0 u).
  match goal with
  | |- context [poll_loop env w _ _ _ _ _ ?r] =>
      rewrite (poll_loop_attempt env w _ _ _ _ _ r u text (d (S m))
                 Hfalsy Hu Hkreply Hkparse Hnoerr Hfield)
  end.
  rewrite Himage, andb_false_r, poll_loop_done by exact Himage.
  cbn [fst]. rewrite Himage, polled_run_after. reflexivity.
Qed.

Lemma poll_loop_refused (n : nat) (init fu image last : JSValue) (r : Run)
  (u : string) (rep : HttpReply) :
  truthy image = false ->
  urlWithKey env fu = Normal u ->
  responses w (fetched r) = Replied rep ->
  reply_ok rep = false ->
  poll_loop env w (S n) init fu image last r
  = (Throw (Error ("Stable Diffusion poll failed: " ++ reply_text rep)),
     after_polls r (poll_request env init u) 1).
Proof.
  intros Himage Hurl Hreply Hok.
  cbn [poll_loop]. rewrite Himage.
  unfold bind, sleep, lift, fetch, throw. cbn [fetched trace]. rewrite Hurl, Hreply.
  unfold Response_text, reply_text. cbn [ok content bodyUsed]. rewrite Hok. cbn [negb].
  replace (after_polls r (poll_request env init u) 1)
    with {| fetched := S (fetched r);
            trace := (trace r ++ [ESleep delayMs]) ++ [EFetch (poll_request env init u)] |}.
  - destruct (reply_body rep); reflexivity.
  - unfold after_polls, poll_events. cbn. rewrite <- app_assoc, Nat.add_1_r. reflexivity.
Qed.

Lemma poll_loop_offline (n : nat) (init fu image last : JSValue) (r : Run) (u : string) :
  truthy image = false ->
  urlWithKey env fu = Normal u ->
  responses w (fetched r) = NetworkError ->
  poll_loop env w (S n) init fu image last r
  = (Throw (Native NetworkFailure), after_polls r (poll_request env init u) 1).
Proof.
  intros Himage Hurl Hreply.
  cbn [poll_loop]. rewrite Himage.
  unfold bind, sleep, lift, fetch, throw. cbn [fetched trace]. rewrite Hurl, Hreply.
  unfold after_polls, poll_events. cbn. rewrite <- app_assoc, Nat.add_1_r. reflexivity.
Qed.

(** X6.  A poll that is answered with a failure status, or not answered at
    all, ends the call at once, whatever attempts are left: the call has
    polled exactly k times and throws the poll-failed error with the text of
    that reply (the network fault when there was no reply). *)
Theorem poll_transport_failure_is_final
  (d0 : JSValue) (u0 : string) (d : nat -> JSValue) (k : nat) :
  polls_until w d0 u0 d k ->
  (forall rep : HttpReply,
     responses w k = Replied rep -> reply_ok rep = false ->
     exists req0 reqp : Request,
       call env w atom entity params baseImage
       = (Throw (Error ("Stable Diffusion poll failed: " ++ reply_text rep)),
          polled_run req0 reqp k))
  /\ (responses w k = NetworkError ->
      exists req0 reqp : Request,
        call env w atom entity params baseImage
        = (Throw (Native NetworkFailure), polled_run req0 reqp k)).
Proof.
  intros Huntil.
  destruct (call_is_requestAndPoll env w atom entity params baseImage)
    as (endpoint & payload & ->).
  destruct k as [| m]; [destruct Huntil as (_ & _ & Hk & _); lia|].
  destruct (requestAndPoll_reaches_attempt endpoint payload _ _ _ _ Huntil)
    as (u & image & last & Hu & Hfalsy & ->).
  split.
  - intros rep Hreply Hok. eexists. exists (poll_request env d0 u).
    match goal with
    | |- context [poll_loop env w _ _ _ _ _ ?r] =>
        rewrite (poll_loop_refused _ _ _ _ _ r u rep Hfalsy Hu Hreply Hok)
    end.
    rewrite polled_run_after. reflexivity.
  - intros Hreply. eexists. exists (poll_request env d0 u).
    match goal with
    | |- context [poll_loop env w _ _ _ _ _ ?r] =>
        rewrite (poll_loop_offline _ _ _ _ _ r u Hfalsy Hu Hreply)
    end.
    rewrite polled_run_after. reflexivity.
Qed.

(** X7.  A poll reply whose status is error, or that carries a truthy error
    field, ends the call at once: the call has polled exactly k times and
    throws an error whose message is the reply's message, else its error
    field, else a fixed text.  An image in that reply is not looked at. *)
Theorem poll_provider_error_is_final
  (d0 : JSValue) (u0 : string) (d : nat -> JSValue) (k : nat) :
  polls_until w d0 u0 d k ->
  replies_json w k (d k) ->
  strict_eq_str (opt_prop (d k) "status") "error" = true
  \/ truthy (opt_prop (d k) "error") = true ->
  exists req0 reqp : Request,
    call env w atom entity params baseImage
    = (Throw (new_Error (js_or (js_or (opt_prop (d k) "message") (opt_prop (d k) "error"))
                               (JString "Stable Diffusion polling error"))),
       polled_run req0 reqp k).
Proof.
  intros Huntil (text & Hkreply & Hkparse) Herror.
  assert (Hcheck : strict_eq_str (opt_prop (d k) "status") "error"
                   || truthy (opt_prop (d k) "error") = true)
    by (apply orb_true_iff; exact Herror).
  destruct (call_is_requestAndPoll env w atom entity params baseImage)
    as (endpoint & payload & ->).
  destruct k as [| m]; [destruct Huntil as (_ & _ & Hk & _); lia|].
  destruct (requestAndPoll_reaches_attempt endpoint payload _ _ _ _ Huntil)
    as (u & image & last & Hu & Hfalsy & ->).
  eexists. exists (poll_request env d0 u).
  match goal with
  | |- context [poll_loop env w _ _ _ _ _ ?r] =>
      rewrite (poll_loop_provider_error env w _ _ _ _ _ r u text (d (S m))
                 Hfalsy Hu Hkreply Hkparse Hcheck)
  end.
  rewrite polled_run_after. reflexivity.
Qed.

(** X8.  A poll that is answered with a success status and a body that is
    not JSON ends the call at once, after exactly k polls.  What is thrown is
    the fault of reading a response body twice: the handler asks for the
    text of a response whose body the failed parse has used up. *)
Theorem poll_body_not_json_is_final
  (d0 : JSValue) (u0 : string) (d : nat -> JSValue) (k : nat) (text : string) :
  polls_until w d0 u0 d k ->
  responses w k = Replied {| reply_ok := true; reply_body := Some text |} ->
  JSON_parse text = None ->
  exists req0 reqp : Request,
    call env w atom entity params baseImage
    = (Throw (Native BodyAlreadyUsed), polled_run req0 reqp k).
Proof.
  intros Huntil Hkreply Hkparse.
  destruct (call_is_requestAndPoll env w atom entity params baseImage)
    as (endpoint & payload & ->).
  destruct k as [| m]; [destruct Huntil as (_ & _ & Hk & _); lia|].
  destruct (requestAndPoll_reaches_attempt endpoint payload _ _ _ _ Huntil)
    as (u & image & last & Hu & Hfalsy & ->).
  eexists. exists (poll_request env d0 u).
  match goal with
  | |- context [poll_loop env w _ _ _ _ _ ?r] =>
      rewrite (poll_loop_unparsable_body env w _ _ _ _ _ r u text
                 Hfalsy Hu Hkreply Hkparse)
  end.
  rewrite polled_run_after. reflexivity.
Qed.

(** *** The initial request *)

Lemma requestAndPoll_initial_body (endpoint : string) (payload d0 : JSValue) :
  replies_json w 0 d0 ->
  nullish d0 = false ->
  passes_initial_check d0 ->
  requestAndPoll env w endpoint payload start
  = (image <-
       (if negb (truthy (parseImage d0))
           && strict_eq_str (prop d0 "status") "processing"
           && truthy (prop d0 "fetch_result")
        then
          polled <- poll_loop env w maxAttempts d0 (prop d0 "fetch_result")
                      (parseImage d0) d0 ;;
          if negb (truthy (fst polled)) then
            throw (Error ("No image returned from Stable Diffusion after polling. Payload: "
                          ++ substring 0 400 (JSON_stringify (snd polled))))
          else ret (fst polled)
        else ret (parseImage d0)) ;;
     if negb (truthy image) then
       throw (Error ("No image returned from Stable Diffusion. Payload: "
                     ++ substring 0 400 (JSON_stringify d0)))
     else lift (normalizeResult image))
      (one_request {| url := endpoint; method := "POST";
                      headers := request_headers env;
                      body := JSON_stringify payload |}).
Proof.
  intros (text & Hreply & Hparse) Hobj (Herror & Hfailed & Hfield).
  unfold requestAndPoll at 1. unfold bind at 1, fetch, start.
  cbn [fetched trace app]. rewrite Hreply.
  cbn [ok reply_ok negb]. unfold bind at 1, lift at 1.
  unfold Response_json, Response_text.
  cbn [content bodyUsed reply_body fst]. rewrite Hparse.
  unfold bind at 1, lift at 1, dot. rewrite Hobj, Herror, Hfailed, Hfield.
  reflexivity.
Qed.

Lemma image_needs_object (d0 : JSValue) : truthy (parseImage d0) = true -> nullish d0 = false.
Proof. destruct d0; try reflexivity; discriminate. Qed.

(** X1.  When the initial request is not answered, is answered with a
    failure status, or is answered with a body that is not JSON, the call
    fails after that one request: with the network fault, with the
    request-failed error that carries the text of the reply, or with the
    parse fault (there is no handler for it at this stage). *)
Theorem initial_transport_failure_is_final :
  (responses w 0 = NetworkError ->
   exists req0 : Request,
     call env w atom entity params baseImage
     = (Throw (Native NetworkFailure), one_request req0))
  /\ (forall rep : HttpReply,
        responses w 0 = Replied rep -> reply_ok rep = false ->
        exists req0 : Request,
          call env w atom entity params baseImage
          = (Throw (Error ("Stable Diffusion request failed: " ++ reply_text rep)),
             one_request req0))
  /\ (forall text : string,
        responses w 0 = Replied {| reply_ok := true; reply_body := Some text |} ->
        JSON_parse text = None ->
        exists req0 : Request,
          call env w atom entity params baseImage
          = (Throw (Native InvalidJSON), one_request req0)).
Proof.
  destruct (call_is_requestAndPoll env w atom entity params baseImage)
    as (endpoint & payload & ->).
  unfold requestAndPoll, bind, fetch, start, lift, throw. cbn [fetched trace app].
  repeat split.
  - intros ->. eexists. reflexivity.
  - intros rep -> Hok. eexists. cbn [ok]. rewrite Hok. cbn [negb].
    unfold Response_text, reply_text. cbn [content bodyUsed].
    destruct (reply_body rep); reflexivity.
  - intros text -> Hparse. eexists. cbn [ok reply_ok negb].
    unfold Response_json, Response_text. cbn [content bodyUsed reply_body fst].
    rewrite Hparse. reflexivity.
Qed.

(** X2.  An initial reply whose status is error or failed, or that carries a
    truthy error field, fails the call after that one request, even when the
    body also holds an image or asks to be polled.  The message is the
    reply's message, else its error field, else a fixed text; the detail of
    an error log, when there is one, follows in brackets. *)
Theorem initial_provider_error_is_final (d0 : JSValue) :
  replies_json w 0 d0 ->
  strict_eq_str (prop d0 "status") "error" = true
  \/ strict_eq_str (prop d0 "status") "failed" = true
  \/ truthy (prop d0 "error") = true ->
  exists (req0 : Request) (e : Exn),
    call env w atom entity params baseImage = (Throw e, one_request req0)
    /\ (truthy (opt_prop (opt_prop d0 "error_log") "error") = false ->
        e = new_Error (js_or (js_or (prop d0 "message") (prop d0 "error"))
                             (JString "Stable Diffusion error")))
    /\ (forall m detail : string,
          truthy (opt_prop (opt_prop d0 "error_log") "error") = true ->
          ToString (js_or (js_or (prop d0 "message") (prop d0 "error"))
                          (JString "Generation failed")) = Normal m ->
          ToString (opt_prop (opt_prop d0 "error_log") "error") = Normal detail ->
          e = Error (m ++ " (" ++ detail ++ ")")).
Proof.
  intros (text & Hreply & Hparse) Herror.
  assert (Hobj : nullish d0 = false).
  { destruct d0; try reflexivity; cbn in Herror; intuition discriminate. }
  assert (Hcheck : strict_eq_str (prop d0 "status") "error"
                   || strict_eq_str (prop d0 "status") "failed"
                   || truthy (prop d0 "error") = true).
  { rewrite !orb_true_iff. tauto. }
  destruct (call_is_requestAndPoll env w atom entity params baseImage)
    as (endpoint & payload & ->).
  unfold requestAndPoll, bind, fetch, start, lift, throw, dot. cbn [fetched trace app].
  rewrite Hreply. cbn [ok reply_ok negb].
  unfold Response_json, Response_text. cbn [content bodyUsed reply_body fst].
  rewrite Hparse, Hobj, Hcheck.
  destruct (truthy (opt_prop (opt_prop d0 "error_log") "error")).
  - destruct (ToString (js_or _ (JString "Generation failed"))) as [m |];
      [destruct (ToString (opt_prop (opt_prop d0 "error_log") "error")) as [dt |] |];
      eexists; eexists; (split; [reflexivity|]); (split; [discriminate|]);
      intros m' dt' _ Hm Hdt; congruence.
  - eexists. eexists. split; [reflexivity|]. split; [reflexivity|]. discriminate.
Qed.

(** X3.  An initial reply that passes the error test and holds an image is
    the whole call: one request, no waiting, no poll, and the image,
    normalised, is the result, whatever the status of the body says. *)
Theorem image_in_initial_reply_needs_no_poll (d0 : JSValue) :
  replies_json w 0 d0 ->
  passes_initial_check d0 ->
  truthy (parseImage d0) = true ->
  exists req0 : Request,
    call env w atom entity params baseImage
    = (normalizeResult (parseImage d0), one_request req0).
Proof.
  intros Hreply Hcheck Himage.
  destruct (call_is_requestAndPoll env w atom entity params baseImage)
    as (endpoint & payload & ->).
  rewrite (requestAndPoll_initial_body _ _ _ Hreply (image_needs_object _ Himage) Hcheck).
  rewrite Himage. cbn [negb andb]. unfold bind, ret, lift. rewrite Himage. cbn [negb].
  eexists. reflexivity.
Qed.

(** X4.  An initial reply that passes the error test, holds no image and
    cannot be polled (its status is not processing, or it names no
    fetch-result URL) fails the call after that one request, with the
    no-image error that embeds the first 400 characters of the body.  The
    body null fails it with the fault of reading a property of null. *)
Theorem no_image_and_nothing_to_poll :
  (forall d0 : JSValue,
     replies_json w 0 d0 ->
     nullish d0 = false ->
     passes_initial_check d0 ->
     truthy (parseImage d0) = false ->
     strict_eq_str (prop d0 "status") "processing" = false
     \/ truthy (prop d0 "fetch_result") = false ->
     exists req0 : Request,
       call env w atom entity params baseImage
       = (Throw (Error ("No image returned from Stable Diffusion. Payload: "
                        ++ substring 0 400 (JSON_stringify d0))),
          one_request req0))
  /\ (replies_json w 0 JNull ->
      exists req0 : Request,
        call env w atom entity params baseImage
        = (Throw (Native ReadOfNullish), one_request req0)).
Proof.
  destruct (call_is_requestAndPoll env w atom entity params baseImage)
    as (endpoint & payload & ->).
  split.
  - intros d0 Hreply Hobj Hcheck Hnone Hstay.
    rewrite (requestAndPoll_initial_body _ _ _ Hreply Hobj Hcheck).
    rewrite Hnone. cbn [negb andb].
    assert (Hgate : strict_eq_str (prop d0 "status") "processing"
                    && truthy (prop d0 "fetch_result") = false).
    { apply andb_false_iff. exact Hstay. }
    rewrite Hgate. unfold bind, ret, throw. rewrite Hnone. cbn [negb].
    eexists. reflexivity.
  - intros (text & Hreply & Hparse).
    unfold requestAndPoll, bind, fetch, start, lift, throw, dot. cbn [fetched trace app].
    rewrite Hreply. cbn [ok reply_ok negb].
    unfold Response_json, Response_text. cbn [content bodyUsed reply_body fst].
    rewrite Hparse. cbn [nullish]. eexists. reflexivity.
Qed.

(** *** What every call costs *)

Lemma after_one_poll (r : Run) (req : Request) :
  {| fetched := S (fetched r); trace := (trace r ++ [ESleep delayMs]) ++ [EFetch req] |}
  = after_polls r req 1.
Proof.
  unfold after_polls, poll_events. cbn. rewrite <- app_assoc, Nat.add_1_r. reflexivity.
Qed.

(** The loop adds whole attempts to the run, at most as many as it is
    allowed; when the poll URL cannot be built it adds one sleep at most. *)
Lemma poll_loop_traffic (remaining : nat) (init fu : JSValue) :
  forall (image last : JSValue) (r r' : Run) (c : Completion (JSValue * JSValue)),
    poll_loop env w remaining init fu image last r = (c, r') ->
    (exists (u : string) (n : nat),
        urlWithKey env fu = Normal u /\ n <= remaining
        /\ r' = after_polls r (poll_request env init u) n)
    \/ (exists e : Exn,
          urlWithKey env fu = Throw e
          /\ (r' = r
              \/ r' = {| fetched := fetched r; trace := trace r ++ [ESleep delayMs] |})).
Proof.
  induction remaining as [| n IH]; intros image last r r' c Hrun; cbn [poll_loop] in Hrun.
  - unfold ret in Hrun. inversion Hrun. subst.
    destruct (urlWithKey env fu) as [u | e].
    + left. exists u, 0. rewrite after_no_polls. auto.
    + right. exists e. auto.
  - destruct (truthy image).
    { unfold ret in Hrun. inversion Hrun. subst.
      destruct (urlWithKey env fu) as [u | e].
      + left. exists u, 0. rewrite after_no_polls. repeat split; try lia; reflexivity.
      + right. exists e. auto. }
    unfold bind, sleep, lift, fetch, throw in Hrun. cbn [fetched trace] in Hrun.
    destruct (urlWithKey env fu) as [u | e] eqn:Hurl.
    2:{ inversion Hrun. right. exists e. auto. }
    left. exists u.
    assert (Hone : forall c0,
               (c0, {| fetched := S (fetched r);
                       trace := (trace r ++ [ESleep delayMs])
                                ++ [EFetch (poll_request env init u)] |}) = (c, r') ->
               exists k, Normal u = Normal u /\ k <= S n
                         /\ r' = after_polls r (poll_request env init u) k).
    { intros c0 H. inversion H. exists 1. rewrite after_one_poll.
      repeat split; try lia; reflexivity. }
    destruct (responses w (fetched r)) as [| rep]; [exact (Hone _ Hrun)|].
    cbn [ok] in Hrun. destruct (reply_ok rep); cbn [negb] in Hrun.
    2:{ destruct (fst (Response_text _)); exact (Hone _ Hrun). }
    destruct (Response_json _) as [[data | e] used].
    2:{ destruct (fst (Response_text used)); exact (Hone _ Hrun). }
    destruct (strict_eq_str (opt_prop data "status") "error" || truthy (opt_prop data "error"));
      [exact (Hone _ Hrun)|].
    destruct (negb (strict_eq_str (opt_prop data "status") "processing")
              && negb (truthy (parseImage data))).
    { unfold ret in Hrun. exact (Hone _ Hrun). }
    rewrite after_one_poll in Hrun.
    destruct (IH _ _ _ _ _ Hrun) as [(u' & k & Hu' & Hk & ->) | (e & He & _)];
      [| congruence].
    assert (u' = u) as -> by congruence.
    exists (1 + k). rewrite after_polls_add. repeat split; try lia; reflexivity.
Qed.

Lemma requestAndPoll_traffic (endpoint : string) (payload : JSValue) :
  exists (reqp : Request) (n : nat),
    n <= maxAttempts
    /\ method reqp = "POST"
    /\ headers reqp = [("Accept", "application/json"); ("Content-Type", "application/json")]
    /\ let req0 := {| url := endpoint; method := "POST"; headers := request_headers env;
                      body := JSON_stringify payload |} in
       (snd (requestAndPoll env w endpoint payload start) = polled_run req0 reqp n
        \/ snd (requestAndPoll env w endpoint payload start)
           = {| fetched := 1; trace := [EFetch req0; ESleep delayMs] |}).
Proof.
  pose (reqp0 := poll_request env JNull EmptyString).
  assert (Hstay : forall c : Completion string,
             exists (reqp : Request) (n : nat),
               n <= maxAttempts /\ method reqp = "POST"
               /\ headers reqp = [("Accept", "application/json");
                                  ("Content-Type", "application/json")]
               /\ (snd (c, one_request {| url := endpoint; method := "POST";
                                           headers := request_headers env;
                                           body := JSON_stringify payload |})
                   = polled_run {| url := endpoint; method := "POST";
                                   headers := request_headers env;
                                   body := JSON_stringify payload |} reqp n
                   \/ snd (c, one_request {| url := endpoint; method := "POST";
                                              headers := request_headers env;
                                              body := JSON_stringify payload |})
                      = {| fetched := 1;
                           trace := [EFetch {| url := endpoint; method := "POST";
                                               headers := request_headers env;
                                               body := JSON_stringify payload |};
                                     ESleep delayMs] |})).
  { intros c. exists reqp0, 0. repeat split; [unfold maxAttempts; lia|..]; try reflexivity. left. reflexivity. }
  cbv zeta.
  unfold requestAndPoll, bind, fetch, start, lift, throw, ret. cbn [fetched trace app].
  fold (one_request {| url := endpoint; method := "POST"; headers := request_headers env;
                       body := JSON_stringify payload |}).
  destruct (responses w 0) as [| rep]; [apply Hstay|].
  cbn [ok]. destruct (reply_ok rep); cbn [negb].
  2:{ destruct (fst (Response_text _)); apply Hstay. }
  destruct (fst (Response_json _)) as [d0 |]; [| apply Hstay].
  destruct (dot d0 "status") as [status |]; [| apply Hstay].
  destruct (strict_eq_str status "error" || strict_eq_str status "failed"
            || truthy (prop d0 "error")).
  { destruct (truthy (opt_prop (opt_prop d0 "error_log") "error")); [| apply Hstay].
    destruct (ToString (js_or _ (JString "Generation failed"))); [| apply Hstay].
    destruct (ToString (opt_prop _ "error")); apply Hstay. }
  destruct (negb (truthy (parseImage d0))
            && strict_eq_str (prop d0 "status") "processing"
            && truthy (prop d0 "fetch_result")).
  2:{ destruct (negb (truthy (parseImage d0))); [apply Hstay|].
      destruct (normalizeResult (parseImage d0)); apply Hstay. }
  destruct (poll_loop env w maxAttempts d0 (prop d0 "fetch_result") (parseImage d0) d0 _)
    as [c r] eqn:Hloop.
  assert (Hr : exists (reqp : Request) (n : nat),
             n <= maxAttempts /\ method reqp = "POST"
             /\ headers reqp = [("Accept", "application/json");
                                ("Content-Type", "application/json")]
             /\ (r = polled_run {| url := endpoint; method := "POST";
                                   headers := request_headers env;
                                   body := JSON_stringify payload |} reqp n
                 \/ r = {| fetched := 1;
                           trace := [EFetch {| url := endpoint; method := "POST";
                                               headers := request_headers env;
                                               body := JSON_stringify payload |};
                                     ESleep delayMs] |})).
  { destruct (poll_loop_traffic _ _ _ _ _ _ _ _ Hloop)
      as [(u & n & _ & Hn & ->) | (e & _ & [-> | ->])].
    - exists (poll_request env d0 u), n. repeat split; [exact Hn|..]; try reflexivity. left.
      unfold after_polls, polled_run, one_request. cbn [fetched trace app]. reflexivity.
    - exists reqp0, 0. repeat split; [unfold maxAttempts; lia|..]; try reflexivity. left. reflexivity.
    - exists reqp0, 0. repeat split; [unfold maxAttempts; lia|..]; try reflexivity. right. reflexivity. }
  destruct c as [polled | e]; [| exact Hr].
  destruct (truthy (fst polled)) eqn:Hfound; cbn [negb]; [| exact Hr].
  rewrite Hfound. cbn [negb]. destruct (normalizeResult (fst polled)); exact Hr.
Qed.

Lemma requests_poll_events (req : Request) (n : nat) : requests (poll_events req n) = n.
Proof. induction n as [| n IH]; cbn; [| rewrite <- IH at 2]; reflexivity. Qed.

Lemma waited_poll_events (req : Request) (n : nat) :
  waited (poll_events req n) = (5000 * Z.of_nat n)%Z.
Proof.
  induction n as [| n IH]; [reflexivity|].
  change (waited (poll_events req (S n))) with (5000 + waited (poll_events req n))%Z.
  rewrite IH. lia.
Qed.

(** X9.  Whatever the server does, a call makes at least one and at most
    seven requests (the run counts them all), waits 30000 at most in total,
    and has slept 5000 before each of its polls. *)
Theorem call_cost_is_bounded :
  let r := snd (call env w atom entity params baseImage) in
  1 <= requests (trace r) <= 7
  /\ fetched r = requests (trace r)
  /\ (5000 * (Z.of_nat (requests (trace r)) - 1) <= waited (trace r) <= 30000)%Z.
Proof.
  cbv zeta.
  destruct (call_is_requestAndPoll env w atom entity params baseImage)
    as (endpoint & payload & ->).
  destruct (requestAndPoll_traffic endpoint payload) as (reqp & n & Hn & _ & _ & H).
  cbv zeta in H. unfold maxAttempts in Hn. destruct H as [-> | ->].
  - unfold polled_run. cbn [fetched trace requests waited].
    rewrite requests_poll_events, waited_poll_events. lia.
  - unfold delayMs. cbn [fetched trace requests waited]. lia.
Qed.

(** X10.  The trace of every call is its initial request, a POST to one of
    the two endpoints with the configured headers, followed by at most six
    rounds of sleeping 5000 and polling.  All polls of a call are one and
    the same POST request, and it carries the two content headers only: a
    configured credential header is never sent on a poll.  (When the poll
    URL cannot be built the trace ends with a sleep.) *)
Theorem call_trace_shape :
  exists (req0 reqp : Request) (n : nat),
    n <= 6
    /\ (url req0 = SD_ENDPOINT env \/ url req0 = SD_IMG2IMG_ENDPOINT env)
    /\ method req0 = "POST"
    /\ headers req0 = request_headers env
    /\ method reqp = "POST"
    /\ headers reqp = [("Accept", "application/json"); ("Content-Type", "application/json")]
    /\ (trace (snd (call env w atom entity params baseImage))
        = EFetch req0 :: poll_events reqp n
        \/ trace (snd (call env w atom entity params baseImage))
           = [EFetch req0; ESleep 5000]).
Proof.
  assert (H : exists (endpoint : string) (payload : JSValue),
             (endpoint = SD_ENDPOINT env \/ endpoint = SD_IMG2IMG_ENDPOINT env)
             /\ call env w atom entity params baseImage
                = requestAndPoll env w endpoint payload start).
  { unfold call, generateQuantumManifestation.
    destruct baseImage as [b |]; [destruct (str_truthy b) |];
      eexists; eexists; (split; [| reflexivity]); auto. }
  destruct H as (endpoint & payload & Hendpoint & ->).
  destruct (requestAndPoll_traffic endpoint payload) as (reqp & n & Hn & Hm & Hh & H).
  cbv zeta in H.
  exists {| url := endpoint; method := "POST"; headers := request_headers env;
            body := JSON_stringify payload |}, reqp, n.
  split; [exact Hn|]. split; [exact Hendpoint|].
  split; [reflexivity|]. split; [reflexivity|]. split; [exact Hm|]. split; [exact Hh|].
  destruct H as [-> | ->]; [left | right]; reflexivity.
Qed.

(** *** The requests a call builds *)

Lemma prefix_of_append (a b : string) : prefix a (a ++ b) = true.
Proof.
  induction a as [| c a IH]; cbn.
  - destruct b; reflexivity.
  - destruct (ascii_dec c c); [exact IH | congruence].
Qed.

Lemma includes_cons (c : ascii) (s needle : string) :
  includes (String c s) needle = prefix needle (String c s) || includes s needle.
Proof.
  unfold includes. cbn [index].
  destruct (prefix needle (String c s)); [reflexivity|].
  destruct (index 0 needle s); reflexivity.
Qed.

Lemma includes_in_the_middle (a needle b : string) : includes (a ++ needle ++ b) needle = true.
Proof.
  induction a as [| c a IH].
  - cbn [append]. destruct (needle ++ b) as [| c s] eqn:Hs.
    + destruct needle; [reflexivity | discriminate].
    + rewrite includes_cons, <- Hs, prefix_of_append. reflexivity.
  - cbn [append]. rewrite includes_cons, IH. apply orb_true_r.
Qed.

Lemma append_assoc (a b c : string) : (a ++ b) ++ c = a ++ b ++ c.
Proof. induction a as [| x a IH]; cbn; [| rewrite IH]; reflexivity. Qed.

(** X11.  The poll URL of a fetch-result URL begins with that URL, and the
    key is added to it once: with no key configured the URL is used as it
    is, with a key the poll URL holds key=, and building the poll URL of a
    poll URL changes nothing. *)
Theorem poll_url_adds_the_key_once (u0 : string) :
  exists u : string,
    urlWithKey env (JString u0) = Normal u
    /\ prefix u0 u = true
    /\ urlWithKey env (JString u) = Normal u
    /\ (SD_API_KEY env = EmptyString -> u = u0)
    /\ (SD_API_KEY env <> EmptyString -> includes u "key=" = true)
    /\ (includes u0 "key=" = true -> u = u0).
Proof.
  assert (Hself : prefix u0 u0 = true).
  { clear. induction u0 as [| c s IH]; cbn; [reflexivity|].
    destruct (ascii_dec c c); [exact IH | congruence]. }
  unfold urlWithKey, str_truthy.
  destruct (SD_API_KEY env =? EmptyString) eqn:Hkey; cbn [negb].
  - apply String.eqb_eq in Hkey. exists u0. cbn [ToString].
    repeat split; auto; congruence.
  - apply String.eqb_neq in Hkey. cbn [method_includes cbind].
    destruct (includes u0 "key=") eqn:Hhas; cbn [negb ToString cbind].
    + exists u0. rewrite Hhas. cbn [negb]. repeat split; auto; congruence.
    + eexists. split; [reflexivity|].
      split; [apply prefix_of_append|].
      assert (Hnow : forall sep : string,
                 includes (u0 ++ sep ++ "key=" ++ encodeURIComponent (SD_API_KEY env)) "key="
                 = true).
      { intros sep. rewrite <- append_assoc. apply includes_in_the_middle. }
      rewrite Hnow. cbn [negb].
      repeat split; try reflexivity; try congruence.
Qed.

Lemma env_or_not_empty (x : option string) (fallback : string) :
  fallback <> EmptyString -> env_or x fallback <> EmptyString.
Proof.
  intros Hf. unfold env_or, str_truthy. destruct x as [s |]; [| exact Hf].
  destruct (s =? EmptyString) eqn:Hs; cbn [negb]; [exact Hf|].
  apply String.eqb_neq. exact Hs.
Qed.

Lemma append_not_empty (a b : string) : b <> EmptyString -> a ++ b <> EmptyString.
Proof. destruct a; cbn; [auto | discriminate]. Qed.

Lemma env_or_falls_back (x : option string) (fallback : string) :
  falls_back x (env_or x fallback) fallback.
Proof.
  unfold falls_back, env_or, configured, str_truthy. split.
  - intros s -> Hs. apply String.eqb_neq in Hs. rewrite Hs. reflexivity.
  - destruct x as [s |]; [intros -> |]; reflexivity.
Qed.

(** X13.  An environment variable that is set to the empty string counts as
    not set, and every constant is its variable when that is set and not
    empty and its default otherwise: the base URL, the image-to-image
    endpoint (default: the base URL followed by its path), the model, the
    width, the height, the key and the key header (default: empty).  The
    text-to-image endpoint is its variable when set and not empty; otherwise
    it is the base URL itself when that holds /api/ and the base URL
    followed by the default path when it does not, and so always holds
    /api/.  The base URL, both endpoints, the model, the width and the
    height are never empty.  The number of samples is the number its
    variable reads as when that is set and not empty, and 1 otherwise. *)
Theorem configuration_falls_back_to_defaults :
  SD_API_BASE env <> EmptyString
  /\ SD_ENDPOINT env <> EmptyString
  /\ SD_IMG2IMG_ENDPOINT env <> EmptyString
  /\ SD_MODEL env <> EmptyString
  /\ SD_WIDTH env <> EmptyString
  /\ SD_HEIGHT env <> EmptyString
  /\ (forall e : string,
        VITE_SD_ENDPOINT env = Some e -> e <> EmptyString -> SD_ENDPOINT env = e)
  /\ (configured (VITE_SD_ENDPOINT env) = false ->
      includes (SD_ENDPOINT env) "/api/" = true
      /\ (SD_ENDPOINT env = SD_API_BASE env
          \/ SD_ENDPOINT env = SD_API_BASE env ++ "/api/v6/images/text2img"))
  /\ (configured (VITE_SD_ENDPOINT env) = false ->
      includes (SD_API_BASE env) "/api/" = true ->
      SD_ENDPOINT env = SD_API_BASE env)
  /\ (configured (VITE_SD_ENDPOINT env) = false ->
      includes (SD_API_BASE env) "/api/" = false ->
      SD_ENDPOINT env = SD_API_BASE env ++ "/api/v6/images/text2img")
  /\ falls_back (VITE_SD_API_BASE_URL env) (SD_API_BASE env) "https://modelslab.com"
  /\ falls_back (VITE_SD_IMG2IMG_ENDPOINT env) (SD_IMG2IMG_ENDPOINT env)
       (SD_API_BASE env ++ "/api/v6/images/img2img")
  /\ falls_back (VITE_SD_API_KEY env) (SD_API_KEY env) EmptyString
  /\ falls_back (VITE_SD_API_KEY_HEADER env) (SD_API_KEY_HEADER env) EmptyString
  /\ falls_back (VITE_SD_MODEL env) (SD_MODEL env) "flux-2-dev"
  /\ falls_back (VITE_SD_WIDTH env) (SD_WIDTH env) "1024"
  /\ falls_back (VITE_SD_HEIGHT env) (SD_HEIGHT env) "1024"
  /\ (forall n : string,
        VITE_SD_SAMPLES env = Some n -> n <> EmptyString ->
        SD_SAMPLES env = Number_ofString n)
  /\ (configured (VITE_SD_SAMPLES env) = false -> SD_SAMPLES env = 1%float).
Proof.
  assert (Hbase : SD_API_BASE env <> EmptyString)
    by (apply env_or_not_empty; discriminate).
  assert (Hunset : configured (VITE_SD_ENDPOINT env) = false ->
                   SD_ENDPOINT env
                   = if includes (SD_API_BASE env) "/api/" then SD_API_BASE env
                     else SD_API_BASE env ++ "/api/v6/images/text2img").
  { intros H. apply (env_or_falls_back (VITE_SD_ENDPOINT env)). exact H. }
  split; [exact Hbase|].
  split.
  { apply env_or_not_empty. destruct (includes (SD_API_BASE env) "/api/"); [exact Hbase|].
    apply append_not_empty. discriminate. }
  split; [apply env_or_not_empty, append_not_empty; discriminate|].
  split; [apply env_or_not_empty; discriminate|].
  split; [apply env_or_not_empty; discriminate|].
  split; [apply env_or_not_empty; discriminate|].
  split; [apply (env_or_falls_back (VITE_SD_ENDPOINT env))|].
  split.
  { intros H. rewrite (Hunset H).
    destruct (includes (SD_API_BASE env) "/api/") eqn:Hapi.
    - split; [exact Hapi | left; reflexivity].
    - split; [| right; reflexivity].
      apply (includes_in_the_middle (SD_API_BASE env) "/api/" "v6/images/text2img"). }
  split; [intros H Hapi; rewrite (Hunset H), Hapi; reflexivity|].
  split; [intros H Hapi; rewrite (Hunset H), Hapi; reflexivity|].
  do 7 (split; [apply env_or_falls_back|]).
  unfold SD_SAMPLES, configured, str_truthy. split.
  - intros n -> Hn. apply String.eqb_neq in Hn. rewrite Hn. reflexivity.
  - destruct (VITE_SD_SAMPLES env) as [n |]; [intros -> |]; reflexivity.
Qed.

(** X12.  The initial request of a call is a POST, with the headers of
    lines 50-57, to the image-to-image endpoint when a non-empty base image
    is given and to the text-to-image endpoint otherwise.  Its body is the
    JSON text of a payload with the same nine fields either way: the model,
    [buildPrompt]'s prompt, the width, the height, 30 steps, the number of
    samples, the seed [Math.floor(Math.random() * 10000000)], the negative
    prompt and the configured key.  For image-to-image init_image follows: a
    list of one string, the base image itself when it begins with http or
    data: and the base image behind the data-reference prefix when it does
    not, so that the string begins with http or data: either way. *)
Theorem initial_request_of_a_call :
  exists (payload : list (string * JSValue)) (rest : list Event),
    trace (snd (call env w atom entity params baseImage))
    = EFetch {| url := if has_base_image baseImage then SD_IMG2IMG_ENDPOINT env
                       else SD_ENDPOINT env;
                method := "POST";
                headers := request_headers env;
                body := JSON_stringify (JObject payload) |} :: rest
    /\ map fst payload
       = (["model_id"; "prompt"; "width"; "height"; "num_inference_steps"; "samples";
           "seed"; "negative_prompt"; "key"]
          ++ (if has_base_image baseImage then ["init_image"] else []))%list
    /\ lookup "model_id" payload = JString (SD_MODEL env)
    /\ lookup "prompt" payload = JString (buildPrompt atom entity params)
    /\ lookup "negative_prompt" payload = JString negative_prompt
    /\ lookup "key" payload = JString (SD_API_KEY env)
    /\ (forall b : string,
          baseImage = Some b -> b <> EmptyString ->
          exists image : string,
            lookup "init_image" payload = JArray [JString image]
            /\ prefix "http" image || prefix "data:" image = true
            /\ (image = b \/ image = "data:image/png;base64," ++ b))
    /\ (has_base_image baseImage = false -> lookup "init_image" payload = JUndefined)
    /\ lookup "width" payload = JString (SD_WIDTH env)
    /\ lookup "height" payload = JString (SD_HEIGHT env)
    /\ lookup "num_inference_steps" payload = JNumber 30%float
    /\ lookup "samples" payload = JNumber (SD_SAMPLES env)
    /\ lookup "seed" payload = JNumber (Math_floor (random w * 10000000)%float)
    /\ (forall b : string,
          baseImage = Some b -> b <> EmptyString ->
          prefix "http" b || prefix "data:" b = true ->
          lookup "init_image" payload = JArray [JString b])
    /\ (forall b : string,
          baseImage = Some b -> b <> EmptyString ->
          prefix "http" b || prefix "data:" b = false ->
          lookup "init_image" payload = JArray [JString ("data:image/png;base64," ++ b)]).
Proof.
  unfold call, generateQuantumManifestation, has_base_image.
  destruct baseImage as [b |]; [destruct (str_truthy b) eqn:Hb |].
  - match goal with
    | |- context [requestAndPoll env w ?e (JObject ?p) start] =>
        destruct (requestAndPoll_starts_with_request env w e (JObject p)) as (rest & Hrest);
        exists p, rest
    end.
    split; [exact Hrest|].
    do 5 (split; [reflexivity|]).
    split.
    { intros b' Hb' _. inversion Hb'. subst b'.
      eexists. split; [reflexivity|].
      destruct (prefix "http" b || prefix "data:" b) eqn:Hurl.
      + split; [exact Hurl | left; reflexivity].
      + split; [reflexivity | right; reflexivity]. }
    split; [discriminate|].
    do 5 (split; [reflexivity|]).
    split; intros b' Hb' _ Hurl; inversion Hb'; subst b';
      cbn [set_prop lookup String.eqb Ascii.eqb Bool.eqb]; rewrite Hurl; reflexivity.
  - match goal with
    | |- context [requestAndPoll env w ?e (JObject ?p) start] =>
        destruct (requestAndPoll_starts_with_request env w e (JObject p)) as (rest & Hrest);
        exists p, rest
    end.
    assert (Hempty : forall b' : string, Some b = Some b' -> b' <> EmptyString -> False).
    { intros b' Hb' Hne. inversion Hb'. subst b'.
      unfold str_truthy in Hb. apply String.eqb_neq in Hne. rewrite Hne in Hb. discriminate. }
    split; [exact Hrest|].
    do 5 (split; [reflexivity|]).
    split; [intros b' Hb' Hne; destruct (Hempty b' Hb' Hne)|].
    split; [reflexivity|].
    do 5 (split; [reflexivity|]).
    split; intros b' Hb' Hne; destruct (Hempty b' Hb' Hne).
  - match goal with
    | |- context [requestAndPoll env w ?e (JObject ?p) start] =>
        destruct (requestAndPoll_starts_with_request env w e (JObject p)) as (rest & Hrest);
        exists p, rest
    end.
    split; [exact Hrest|].
    do 5 (split; [reflexivity|]).
    split; [discriminate|].
    split; [reflexivity|].
    do 5 (split; [reflexivity|]).
    split; discriminate.
Qed.

End Paths.

(** ** The application *)

Section FileNames.

Lemma lower_alnum_is_no_dash (c : ascii) : is_lower_alnum c = true -> is_dash c = false.
Proof.
  intros H. unfold is_dash. destruct (Ascii.eqb c dash) eqn:Hc; [| reflexivity].
  apply Ascii.eqb_eq in Hc. subst c. discriminate.
Qed.

Lemma lower_alnum_is_lower (c : ascii) : is_lower_alnum c = true -> toLowerCase_char c = c.
Proof.
  unfold is_lower_alnum, toLowerCase_char. cbv zeta. intros H.
  destruct ((65 <=? nat_of_ascii c)%nat && (nat_of_ascii c <=? 90)%nat) eqn:Hup;
    [| reflexivity].
  apply andb_true_iff in Hup. destruct Hup as (H1 & H2).
  apply Nat.leb_le in H1, H2.
  apply orb_true_iff in H. destruct H as [H | H]; apply andb_true_iff in H;
    destruct H as (H3 & H4); apply Nat.leb_le in H3, H4; lia.
Qed.

Lemma replace_runs_chars (s : string) :
  forall b, all_chars (fun c => is_lower_alnum c || is_dash c) (replace_runs b s) = true.
Proof.
  induction s as [| c s IH]; intros b; cbn [replace_runs]; [reflexivity|].
  destruct (is_lower_alnum c) eqn:Hc.
  - cbn [all_chars]. rewrite Hc, IH. reflexivity.
  - destruct b; [apply IH|]. cbn [all_chars]. rewrite IH. reflexivity.
Qed.

Lemma starts_without_dash (s : string) : prefix "-" (replace_runs true s) = false.
Proof.
  induction s as [| c s IH]; cbn [replace_runs]; [reflexivity|].
  destruct (is_lower_alnum c) eqn:Hc; [| exact IH].
  cbn [prefix]. destruct (ascii_dec "-" c) as [<- |]; [discriminate | reflexivity].
Qed.

Lemma replace_runs_dashes (s : string) :
  forall b, includes (replace_runs b s) "--" = false.
Proof.
  induction s as [| c s IH]; intros b; cbn [replace_runs]; [reflexivity|].
  destruct (is_lower_alnum c) eqn:Hc.
  - rewrite includes_cons, IH. cbn [prefix].
    destruct (ascii_dec "-" c) as [<- |]; [discriminate | reflexivity].
  - destruct b; [apply IH|].
    rewrite includes_cons, IH. change dash with "-"%char. cbn [prefix].
    destruct (ascii_dec "-" "-"); [| reflexivity].
    rewrite starts_without_dash. reflexivity.
Qed.

Lemma replace_runs_not_empty (s : string) :
  s <> EmptyString -> replace_runs false s <> EmptyString.
Proof.
  destruct s as [| c s]; [congruence|]. intros _. cbn [replace_runs].
  destruct (is_lower_alnum c); discriminate.
Qed.

Lemma toLowerCase_not_empty (s : string) : s <> EmptyString -> toLowerCase s <> EmptyString.
Proof. destruct s; [congruence | discriminate]. Qed.

(** X14.  The file name of a download is quantum- and .png around a stem
    that is never empty, is made of the characters a-z, 0-9 and the dash
    only, and has no two dashes in a row, whatever the entity is called; the
    stem of the empty entity is subject. *)
Theorem download_name_is_tame (selectedEntity : string) :
  exists stem : string,
    download_name selectedEntity = "quantum-" ++ stem ++ ".png"
    /\ stem <> EmptyString
    /\ all_chars (fun c => is_lower_alnum c || is_dash c) stem = true
    /\ includes stem "--" = false
    /\ (selectedEntity = EmptyString -> stem = "subject").
Proof.
  unfold download_name, slug. eexists. split; [reflexivity|].
  split; [| split; [apply replace_runs_chars | split; [apply replace_runs_dashes|]]].
  - apply replace_runs_not_empty, toLowerCase_not_empty.
    unfold str_truthy. destruct (selectedEntity =? EmptyString) eqn:He; cbn [negb].
    + discriminate.
    + apply String.eqb_neq. exact He.
  - intros ->. reflexivity.
Qed.

Lemma replace_runs_again (s : string) :
  replace_runs false (replace_runs false s) = replace_runs false s
  /\ replace_runs true (replace_runs true s) = replace_runs true s
  /\ replace_runs false (replace_runs true s) = replace_runs true s.
Proof.
  induction s as [| c s (IHff & IHtt & IHft)]; [repeat split|].
  cbn [replace_runs]. destruct (is_lower_alnum c) eqn:Hc.
  - cbn [replace_runs]. rewrite Hc, IHff. repeat split.
  - split; [| split; assumption].
    cbn [replace_runs]. change (is_lower_alnum dash) with false. cbn iota.
    rewrite IHtt. reflexivity.
Qed.

Lemma replace_runs_is_lower (s : string) :
  forall b, toLowerCase (replace_runs b s) = replace_runs b s.
Proof.
  induction s as [| c s IH]; intros b; cbn [replace_runs]; [reflexivity|].
  destruct (is_lower_alnum c) eqn:Hc.
  - cbn [toLowerCase]. rewrite IH, (lower_alnum_is_lower _ Hc). reflexivity.
  - destruct b; [apply IH|]. cbn [toLowerCase]. rewrite IH. reflexivity.
Qed.

(** X15.  Making the stem of a stem changes nothing: a name that went
    through [downloadImage]'s lower-casing and replacement once is left
    alone by them. *)
Theorem slug_is_idempotent (s : string) : slug (slug s) = slug s.
Proof.
  unfold slug. rewrite replace_runs_is_lower. apply replace_runs_again.
Qed.

End FileNames.

Section AppFacts.
Context {PF : Platform}.
Variable env : Env.
Variable fault_message : Fault -> string.

Lemma pick_in_range (arr : list string) (r : float) :
  index_below r (List.length arr) -> exists s : string, pick arr r = Some s /\ In s arr.
Proof.
  intros (i & Hi & Hlt). unfold pick. rewrite Hi.
  destruct (nth_error arr i) as [s |] eqn:Hs.
  - exists s. split; [reflexivity|]. apply (nth_error_In _ _ Hs).
  - apply nth_error_None in Hs. lia.
Qed.

(** X19.  When the random numbers give indices inside the tables, the
    subject is a visual style, a space and then an animal (first random
    number below 0.5) or a space phenomenon (otherwise), each taken from its
    table: the text undefined never shows up in it. *)
Theorem pickRandomSubject_is_a_styled_subject (b : Browser) (i : nat) :
  index_below (Math_random b (i + 1)) 8 ->
  index_below (Math_random b (i + 2)) 16 ->
  exists style subject : string,
    pickRandomSubject b i = style ++ " " ++ subject
    /\ In style VISUAL_STYLES
    /\ (((Math_random b i <? 0.5)%float = true /\ In subject ANIMALS)
        \/ ((Math_random b i <? 0.5)%float = false /\ In subject SPACE_PHENOMENA)).
Proof.
  intros Hstyle Hsubject. unfold pickRandomSubject.
  destruct (pick_in_range VISUAL_STYLES _ Hstyle) as (style & -> & Hin).
  destruct (Math_random b i <? 0.5)%float.
  - destruct (pick_in_range ANIMALS _ Hsubject) as (animal & -> & Hin').
    exists style, animal. cbn [shown]. auto.
  - destruct (pick_in_range SPACE_PHENOMENA _ Hsubject) as (phen & -> & Hin').
    exists style, phen. cbn [shown]. auto.
Qed.

(** X20.  When the random numbers give indices inside the tables, the
    explanation is an opening, a motif, a payoff, the entity and a finish,
    each part from its table; it does not depend on the atom. *)
Theorem explainCollapse_is_a_sentence (b : Browser) (i : nat) (atom : AtomType)
  (entity : EntityType) :
  index_below (Math_random b i) 4 ->
  index_below (Math_random b (i + 1)) 5 ->
  index_below (Math_random b (i + 2)) 4 ->
  index_below (Math_random b (i + 3)) 4 ->
  exists o m p f : string,
    In o openings /\ In m motifs /\ In p payoffs /\ In f finishes
    /\ (forall a : AtomType,
          explainCollapse b i a entity = o ++ ", " ++ m ++ ", " ++ p ++ " " ++ entity ++ ". " ++ f).
Proof.
  intros Ho Hm Hp Hf. unfold explainCollapse.
  destruct (pick_in_range openings _ Ho) as (o & -> & Hino).
  destruct (pick_in_range motifs _ Hm) as (m & -> & Hinm).
  destruct (pick_in_range payoffs _ Hp) as (p & -> & Hinp).
  destruct (pick_in_range finishes _ Hf) as (f & -> & Hinf).
  exists o, m, p, f. cbn [shown]. repeat split; assumption.
Qed.

(** *** Collapsing *)

Lemma first_request_goes_to (w : World) (atom : AtomType) (entity : EntityType)
  (params : WaveParams) (baseImage : option string) :
  exists (req : Request) (rest : list Event),
    trace (snd (generateQuantumManifestation env w atom entity params baseImage start))
    = EFetch req :: rest
    /\ url req = if has_base_image baseImage then SD_IMG2IMG_ENDPOINT env
                 else SD_ENDPOINT env.
Proof.
  unfold generateQuantumManifestation, has_base_image.
  destruct baseImage as [b |]; [destruct (str_truthy b) |];
    match goal with
    | |- context [requestAndPoll env w ?e ?p start] =>
        destruct (requestAndPoll_starts_with_request env w e p) as (rest & Hrest)
    end;
    eexists; exists rest; (split; [exact Hrest | reflexivity]).
Qed.

Lemma trim_of_blank (s : string) : all_chars is_space s = true -> trim s = EmptyString.
Proof.
  unfold trim. induction s as [| c s IH]; cbn [all_chars trimStart]; [reflexivity|].
  intros H. apply andb_true_iff in H. destruct H as (Hc & Hs). rewrite Hc. apply IH, Hs.
Qed.

(** What one run does to the quota of a visitor who has not subscribed. *)
Lemma handleCollapse_quota (b : Browser) (s : AppState) :
  isSubscribed s = false ->
  let (s1, r) := handleCollapse env fault_message b s s in
  isSubscribed s1 = false
  /\ usageCount s <= usageCount s1 <= Nat.max (usageCount s) 5
  /\ (5 <= usageCount s -> trace r = [] /\ usageCount s1 = usageCount s).
Proof.
  intros Hfree. unfold handleCollapse. rewrite Hfree. cbn [negb andb].
  unfold MAX_FREE_USES.
  destruct (5 <=? usageCount s)%nat eqn:Hgate.
  - apply Nat.leb_le in Hgate. cbn [isSubscribed usageCount start trace].
    repeat split; try assumption; lia.
  - apply Nat.leb_gt in Hgate.
    destruct (generateQuantumManifestation _ _ _ _ _ _ start) as [[image | e] r];
      cbn [isSubscribed usageCount]; repeat split; try assumption; lia.
Qed.

(** X17.  A visitor who has not subscribed gets five images at most,
    however often they click: over any number of runs, one after the other,
    the usage counter never goes down and never passes five (or where it
    started, if that was higher), and once it has reached five no run makes
    a request any more. *)
Theorem free_runs_stay_within_quota (runs : list Browser) (s : AppState) :
  isSubscribed s = false ->
  let (s', t) := collapse_all env fault_message runs s in
  isSubscribed s' = false
  /\ usageCount s <= usageCount s' <= Nat.max (usageCount s) 5
  /\ (5 <= usageCount s -> t = [] /\ usageCount s' = usageCount s).
Proof.
  revert s. induction runs as [| b runs IH]; intros s Hfree; cbn [collapse_all].
  - repeat split; try assumption; lia.
  - pose proof (handleCollapse_quota b s Hfree) as Hone.
    destruct (handleCollapse env fault_message b s s) as [s1 r].
    destruct Hone as (Hfree1 & Hbound1 & Hgate1).
    specialize (IH s1 Hfree1).
    destruct (collapse_all env fault_message runs s1) as [s2 t].
    destruct IH as (Hfree2 & Hbound2 & Hgate2).
    split; [exact Hfree2|]. split; [lia|].
    intros Hfull. destruct (Hgate1 Hfull) as (Ht & Heq).
    destruct Hgate2 as (-> & Heq2); [lia|].
    rewrite Ht. split; [reflexivity | lia].
Qed.

(** X16.  A run that passes the gate counts a use and shows an image only
    when the server sent one: the image shown is the normalised image that
    [parseImage] found in a reply of that run.  Then the selfie is dropped
    and no error is shown.  When the call fails, the counter, the selfie and
    the image shown before stay as they were and an error text that begins
    with Quantum decoherence failed is shown.  Either way the run is over. *)
Theorem handleCollapse_counts_images_only (b : Browser) (seen now : AppState) :
  isSubscribed seen = true \/ usageCount seen < 5 ->
  let (s', r) := handleCollapse env fault_message b seen now in
  isCollapsing (state s') = false
  /\ showPaywall s' = showPaywall now
  /\ ((usageCount s' = usageCount now + 1
       /\ error (state s') = None
       /\ isCollapsed (state s') = true
       /\ selfieData s' = None /\ selfieUrl s' = EmptyString
       /\ exists (result : string) (k : nat) (image : JSValue),
            collapsedImage (state s') = Some result
            /\ k <= 6
            /\ extracted_from {| responses := server b; random := Math_random b 3 |} k image
            /\ normalizeResult image = Normal result)
      \/ (usageCount s' = usageCount now
          /\ selfieData s' = selfieData now /\ selfieUrl s' = selfieUrl now
          /\ collapsedImage (state s') = collapsedImage (state now)
          /\ isCollapsed (state s') = isCollapsed (state now)
          /\ exists msg : string,
               error (state s') = Some msg
               /\ prefix "Quantum decoherence failed" msg = true)).
Proof.
  intros Hopen. unfold handleCollapse.
  assert (Hgate : negb (isSubscribed seen) && (MAX_FREE_USES <=? usageCount seen)%nat = false).
  { destruct Hopen as [-> | Hlt]; [reflexivity|].
    apply andb_false_iff. right. apply Nat.leb_gt. exact Hlt. }
  rewrite Hgate.
  destruct (generateQuantumManifestation env _ _ _ _ _ start) as [[result | e] r] eqn:Hcall.
  - cbn [state isCollapsing showPaywall usageCount error isCollapsed selfieData selfieUrl
           collapsedImage].
    split; [reflexivity|]. split; [reflexivity|]. left.
    repeat split.
    match type of Hcall with
    | generateQuantumManifestation env ?w ?a ?s ?p ?bi start = _ =>
        destruct (call_is_requestAndPoll env w a s p bi) as (endpoint & payload & Hreq)
    end.
    unfold call in Hreq. rewrite Hreq in Hcall.
    destruct (requestAndPoll_result env _ _ _ _ _ Hcall) as (k & image & Hk & _ & Hex & Hnorm).
    exists result, k, image. repeat split; assumption.
  - cbn [state isCollapsing showPaywall usageCount error isCollapsed selfieData selfieUrl
           collapsedImage].
    split; [reflexivity|]. split; [reflexivity|]. right.
    repeat split. eexists. split; [reflexivity|].
    destruct (str_truthy (message_of fault_message e)); reflexivity.
Qed.

Lemma endpoint_of_selfie (u : string) (data : option string) (x a b : string) :
  x = (if has_base_image (chosen_base_image u data) then a else b) ->
  (trim u <> EmptyString -> x = a)
  /\ (forall d : string, data = Some d -> d <> EmptyString -> x = a)
  /\ (all_chars is_space u = true -> data = None \/ data = Some EmptyString -> x = b).
Proof.
  intros ->. unfold chosen_base_image, str_truthy. split; [| split].
  - intros Hne. apply String.eqb_neq in Hne. rewrite Hne. cbn [negb has_base_image].
    unfold str_truthy. rewrite Hne. reflexivity.
  - intros d -> Hne. apply String.eqb_neq in Hne.
    destruct (trim u =? EmptyString) eqn:Ht; cbn [negb].
    + rewrite Hne. cbn [negb has_base_image]. unfold str_truthy. rewrite Hne. reflexivity.
    + cbn [has_base_image]. unfold str_truthy. rewrite Ht. reflexivity.
  - intros Hblank Hdata. rewrite (trim_of_blank _ Hblank). cbn [String.eqb negb].
    destruct Hdata as [-> | ->]; reflexivity.
Qed.

(** X18.  The request of a run that passes the gate goes to the
    image-to-image endpoint exactly when the callback holds a selfie: a
    selfie URL that is not blank, or else selfie data that is not empty.  A
    selfie URL of white space only counts as none.  The selfie is the one
    the callback closed over ([seen]), whatever the state holds by now. *)
Theorem selfie_decides_the_endpoint (b : Browser) (seen now : AppState) :
  isSubscribed seen = true \/ usageCount seen < 5 ->
  exists (req : Request) (rest : list Event),
    trace (snd (handleCollapse env fault_message b seen now)) = EFetch req :: rest
    /\ (trim (selfieUrl seen) <> EmptyString -> url req = SD_IMG2IMG_ENDPOINT env)
    /\ (forall data : string,
          selfieData seen = Some data -> data <> EmptyString ->
          url req = SD_IMG2IMG_ENDPOINT env)
    /\ (all_chars is_space (selfieUrl seen) = true ->
        selfieData seen = None \/ selfieData seen = Some EmptyString ->
        url req = SD_ENDPOINT env).
Proof.
  intros Hopen. unfold handleCollapse.
  assert (Hgate : negb (isSubscribed seen) && (MAX_FREE_USES <=? usageCount seen)%nat = false).
  { destruct Hopen as [-> | Hlt]; [reflexivity|].
    apply andb_false_iff. right. apply Nat.leb_gt. exact Hlt. }
  rewrite Hgate.
  match goal with
  | |- context [generateQuantumManifestation env ?w ?a ?s ?p ?bi start] =>
      destruct (first_request_goes_to w a s p bi) as (req & rest & Htrace & Hurl);
      destruct (generateQuantumManifestation env w a s p bi start) as [[result | e] r]
  end;
    cbn [snd] in *; exists req, rest; (split; [exact Htrace|]);
    apply (endpoint_of_selfie _ _ _ _ _ Hurl).
Qed.

End AppFacts.

(** The examples below run on the test double of the platform. *)
#[local] Existing Instance Demo.platform.

(** C6, the claim as stated, fails: the string httpxyz begins with no
    HTTP(S) scheme and is returned unchanged all the same, not wrapped.  (And
    a scheme written in capitals is not recognised: that URL is wrapped.) *)
Lemma normalizeResult_keeps_httpxyz :
  has_http_scheme "httpxyz" = false
  /\ normalizeResult (JString "httpxyz") = Normal "httpxyz"
  /\ normalizeResult (JString "httpxyz") <> Normal ("data:image/png;base64," ++ "httpxyz")
  /\ normalizeResult (JString "HTTPS://x/y.png")
     = Normal "data:image/png;base64,HTTPS://x/y.png".
Proof. repeat split. discriminate. Qed.

(** C6, witness. *)
Lemma normalizeResult_url_or_data_reference_witness :
  normalizeResult (JString "http://cdn/a.png") = Normal "http://cdn/a.png"
  /\ normalizeResult (JArray [JString "ab"; JNull; JString "cd"])
     = Normal "data:image/png;base64,ab,,cd".
Proof.
  split.
  - apply (proj1 normalizeResult_url_or_data_reference). reflexivity.
  - apply (proj1 (proj2 normalizeResult_url_or_data_reference)); reflexivity.
Defined.

Lemma scripted_rest (first rest : FetchResult) (k : nat) :
  1 <= k -> responses (Demo.script [first] rest) k = rest.
Proof. intros Hk. destruct k as [| [| k]]; [lia | reflexivity | reflexivity]. Qed.

(** C1, witness: the end-to-end scenario of the specification.  The job is
    accepted, the first poll says processing, the second poll holds the
    image URL, which is the result. *)
Lemma result_only_from_an_extracted_image_witness :
  exists (k : nat) (image : JSValue),
    k <= maxAttempts
    /\ k < fetched (snd (Demo.arctic_fox Demo.no_env Demo.finishes_on_second_poll))
    /\ extracted_from Demo.finishes_on_second_poll k image
    /\ normalizeResult image = Normal "https://cdn/img.png".
Proof.
  apply (proj1 (result_only_from_an_extracted_image Demo.no_env Demo.finishes_on_second_poll
                  Hydrogen "arctic fox" Demo.unit_wave None)
           "https://cdn/img.png"
           (snd (Demo.arctic_fox Demo.no_env Demo.finishes_on_second_poll))).
  vm_compute. reflexivity.
Defined.

(** C2, the claim as stated, fails: it leaves the error field out.  Here the
    job is accepted and every poll reply has status processing and no image,
    as the claim asks, but the poll replies also carry an error field: the
    call polls once and fails with the provider's message.  An error field
    in the accepting reply fails the call before any poll. *)
Lemma error_field_ends_polling_at_once :
  replies_json Demo.running_with_error 0 Demo.job_accepted
  /\ still_processing Demo.job_accepted
  /\ opt_prop Demo.job_accepted "fetch_result" = JString "https://p/poll"
  /\ (forall k, 1 <= k -> replies_json Demo.running_with_error k Demo.job_running_with_error)
  /\ still_processing Demo.job_running_with_error
  /\ fst (Demo.arctic_fox Demo.no_env Demo.running_with_error) = Throw (Error "quota exceeded")
  /\ fetched (snd (Demo.arctic_fox Demo.no_env Demo.running_with_error)) = 2
  /\ replies_json Demo.accepted_with_error 0 Demo.job_accepted_with_error
  /\ still_processing Demo.job_accepted_with_error
  /\ opt_prop Demo.job_accepted_with_error "fetch_result" = JString "https://p/poll"
  /\ (forall k, 1 <= k -> replies_json Demo.accepted_with_error k Demo.job_running)
  /\ fst (Demo.arctic_fox Demo.no_env Demo.accepted_with_error) = Throw (Error "rate limited")
  /\ fetched (snd (Demo.arctic_fox Demo.no_env Demo.accepted_with_error)) = 1.
Proof.
  repeat split.
  - eexists. split; reflexivity.
  - intros k Hk. eexists. split; [apply scripted_rest; exact Hk | reflexivity].
  - eexists. split; reflexivity.
  - intros k Hk. eexists. split; [apply scripted_rest; exact Hk | reflexivity].
Qed.

(** C2, witness: a server that never finishes the job. *)
Lemma polling_gives_up_after_six_attempts_witness :
  exists req0 reqp : Request,
    Demo.arctic_fox Demo.no_env Demo.never_finishes
    = (Throw (Error ("No image returned from Stable Diffusion after polling. Payload: "
                     ++ substring 0 400 (JSON_stringify Demo.job_running))),
       {| fetched := 7; trace := EFetch req0 :: poll_events reqp 6 |}).
Proof.
  unfold Demo.arctic_fox.
  apply (polling_gives_up_after_six_attempts Demo.no_env Demo.never_finishes
           Hydrogen "arctic fox" Demo.unit_wave None
           Demo.job_accepted "https://p/poll" (fun _ => Demo.job_running)).
  - eexists. split; reflexivity.
  - repeat split. discriminate.
  - intros k Hk. repeat split.
    eexists. split; [apply scripted_rest; lia | reflexivity].
Defined.

(** C3, witness: the second poll reply says success and holds no image. *)
Lemma polling_stops_at_first_finished_reply_without_image_witness :
  exists req0 reqp : Request,
    Demo.arctic_fox Demo.no_env Demo.gives_up_on_second_poll
    = (Throw (Error ("No image returned from Stable Diffusion after polling. Payload: "
                     ++ substring 0 400 (JSON_stringify Demo.job_gone))),
       {| fetched := 3; trace := EFetch req0 :: poll_events reqp 2 |}).
Proof.
  unfold Demo.arctic_fox.
  apply (polling_stops_at_first_finished_reply_without_image
           Demo.no_env Demo.gives_up_on_second_poll
           Hydrogen "arctic fox" Demo.unit_wave None
           Demo.job_accepted "https://p/poll"
           (fun j => if Nat.eqb j 1 then Demo.job_running else Demo.job_gone) 2).
  - eexists. split; reflexivity.
  - repeat split. discriminate.
  - lia.
  - intros j Hj. assert (j = 1) as -> by lia. repeat split.
    eexists. split; reflexivity.
  - eexists. split; reflexivity.
  - reflexivity.
  - reflexivity.
  - reflexivity.
  - reflexivity.
Defined.

(** C7, where the code departs from the claim: a poll reply with status
    failed.  Read as the initial reply, such a body fails the call with the
    provider's message.  Read as a poll reply it passes the error test: its
    image, if it has one, is extracted and the call succeeds; without an
    image the call fails, but with the no-image message. *)
Theorem failed_status_passes_the_poll_check :
  fst (Demo.arctic_fox Demo.no_env
         (Demo.script [] (Demo.json_reply Demo.job_failed_with_image)))
  = Throw (Error "boom")
  /\ fst (Demo.arctic_fox Demo.no_env Demo.fails_with_image)
     = Normal "data:image/png;base64,aGVsbG8="
  /\ fetched (snd (Demo.arctic_fox Demo.no_env Demo.fails_with_image)) = 2
  /\ fst (Demo.arctic_fox Demo.no_env Demo.fails_without_image)
     = Throw (Error ("No image returned from Stable Diffusion after polling. Payload: "
                     ++ Demo.stringify Demo.job_failed)).
Proof. repeat split. Qed.

(** C8, where the code departs from the claim: a poll reply with a success
    status whose body is an HTML page.  The call fails at that poll, but the
    error is the TypeError of reading the body a second time; the message
    with the raw text is never built. *)
Theorem poll_parse_failure_loses_the_text :
  JSON_parse Demo.bad_gateway_page = None
  /\ fst (Demo.arctic_fox Demo.no_env Demo.poll_not_json) = Throw (Native BodyAlreadyUsed)
  /\ fst (Demo.arctic_fox Demo.no_env Demo.poll_not_json)
     <> Throw (Error ("Stable Diffusion poll parse failed: " ++ Demo.bad_gateway_page))
  /\ fetched (snd (Demo.arctic_fox Demo.no_env Demo.poll_not_json)) = 2.
Proof. repeat split. discriminate. Qed.

(** C9, where the code departs from the claim: the header name __proto__.
    A key and a header name are configured, and the initial request carries
    the two content headers and no credential: the assignment of line 55
    reaches the __proto__ setter of the object's prototype, which ignores a
    string, where the comment of line 19 names a blank header name as the
    way to omit the header.  Under the name X-API-KEY the same key is sent. *)
Theorem proto_header_name_sends_no_credential :
  SD_API_KEY (Demo.env_with "abc123" "__proto__") = "abc123"
  /\ SD_API_KEY_HEADER (Demo.env_with "abc123" "__proto__") = "__proto__"
  /\ (exists (req : Request) (rest : list Event),
        trace (snd (Demo.arctic_fox (Demo.env_with "abc123" "__proto__") Demo.never_finishes))
        = EFetch req :: rest
        /\ headers req
           = [("Content-Type", "application/json"); ("Accept", "application/json")]
        /\ header_value "__proto__" (headers req) = None)
  /\ (exists (req : Request) (rest : list Event),
        trace (snd (Demo.arctic_fox (Demo.env_with "abc123" "X-API-KEY") Demo.never_finishes))
        = EFetch req :: rest
        /\ headers req
           = [("Content-Type", "application/json"); ("Accept", "application/json");
              ("X-API-KEY", "abc123")]).
Proof.
  split; [reflexivity|]. split; [reflexivity|].
  split; eexists; eexists; (split; [reflexivity|]); repeat split.
Qed.

(** X21, witness: the three configurations of the specification. *)
Lemma credential_header_logic_witness :
  (exists (req : Request) (rest : list Event),
     trace (snd (Demo.arctic_fox (Demo.env_with "abc123" "Authorization") Demo.never_finishes))
     = EFetch req :: rest
     /\ header_value "Authorization" (headers req) = Some "Bearer abc123")
  /\ (exists (req : Request) (rest : list Event),
        trace (snd (Demo.arctic_fox (Demo.env_with "abc123" "X-API-KEY") Demo.never_finishes))
        = EFetch req :: rest
        /\ header_value "X-API-KEY" (headers req) = Some "abc123")
  /\ (exists (req : Request) (rest : list Event),
        trace (snd (Demo.arctic_fox (Demo.env_with "abc123" EmptyString) Demo.never_finishes))
        = EFetch req :: rest
        /\ headers req
           = [("Content-Type", "application/json"); ("Accept", "application/json")]).
Proof.
  repeat split.
  - destruct (credential_header_logic (Demo.env_with "abc123" "Authorization")
                Demo.never_finishes Hydrogen "arctic fox" Demo.unit_wave None)
      as (req & rest & Htrace & Hbearer & _ & _).
    exists req, rest. split; [exact Htrace|].
    apply Hbearer; [discriminate | discriminate | reflexivity].
  - destruct (credential_header_logic (Demo.env_with "abc123" "X-API-KEY")
                Demo.never_finishes Hydrogen "arctic fox" Demo.unit_wave None)
      as (req & rest & Htrace & _ & Hbare & _).
    exists req, rest. split; [exact Htrace|].
    apply Hbare; discriminate.
  - destruct (credential_header_logic (Demo.env_with "abc123" EmptyString)
                Demo.never_finishes Hydrogen "arctic fox" Demo.unit_wave None)
      as (req & rest & Htrace & _ & _ & Hnone).
    exists req, rest. split; [exact Htrace|].
    apply Hnone. right. left. reflexivity.
Defined.

(** *** Examples for the paths of a call *)

Lemma second_poll_is_reached (rest : FetchResult) (last : JSValue) :
  polls_until
    (Demo.script [Demo.json_reply Demo.job_accepted; Demo.json_reply Demo.job_running] rest)
    Demo.job_accepted "https://p/poll" (Scenes.running_then last) 2.
Proof.
  split; [eexists; split; reflexivity|].
  split; [repeat split; discriminate|].
  split; [lia|].
  intros j Hj. assert (j = 1) as -> by lia.
  repeat split. eexists. split; reflexivity.
Qed.

(** X1, witness: a server that answers 401 with the text Unauthorized. *)
Lemma initial_transport_failure_is_final_witness :
  exists req0 : Request,
    Demo.arctic_fox Demo.no_env Scenes.unauthorized
    = (Throw (Error "Stable Diffusion request failed: Unauthorized"), one_request req0).
Proof.
  unfold Demo.arctic_fox.
  apply (proj1 (proj2 (initial_transport_failure_is_final Demo.no_env Scenes.unauthorized
                         Hydrogen "arctic fox" Demo.unit_wave None))
           {| reply_ok := false; reply_body := Some "Unauthorized" |});
    reflexivity.
Defined.

(** X2, witness: the job is rejected with status failed and a message. *)
Lemma initial_provider_error_is_final_witness :
  exists (req0 : Request) (e : Exn),
    Demo.arctic_fox Demo.no_env Scenes.job_rejected = (Throw e, one_request req0)
    /\ e = Error "out of credits".
Proof.
  unfold Demo.arctic_fox.
  destruct (initial_provider_error_is_final Demo.no_env Scenes.job_rejected
              Hydrogen "arctic fox" Demo.unit_wave None Demo.job_failed)
    as (req0 & e & Hcall & Hplain & _).
  - eexists. split; reflexivity.
  - right. left. reflexivity.
  - exists req0, e. split; [exact Hcall|]. apply Hplain. reflexivity.
Defined.

(** X3, witness: the image comes with the first reply. *)
Lemma image_in_initial_reply_needs_no_poll_witness :
  exists req0 : Request,
    Demo.arctic_fox Demo.no_env Scenes.image_at_once
    = (Normal "https://cdn/img.png", one_request req0).
Proof.
  unfold Demo.arctic_fox.
  apply (image_in_initial_reply_needs_no_poll Demo.no_env Scenes.image_at_once
           Hydrogen "arctic fox" Demo.unit_wave None Demo.job_done).
  - eexists. split; reflexivity.
  - repeat split.
  - reflexivity.
Defined.

(** X4, witness: the first reply says success and holds no image. *)
Lemma no_image_and_nothing_to_poll_witness :
  exists req0 : Request,
    Demo.arctic_fox Demo.no_env Scenes.nothing_to_poll
    = (Throw (Error ("No image returned from Stable Diffusion. Payload: "
                     ++ substring 0 400 (JSON_stringify Demo.job_gone))),
       one_request req0).
Proof.
  unfold Demo.arctic_fox.
  apply (proj1 (no_image_and_nothing_to_poll Demo.no_env Scenes.nothing_to_poll
                  Hydrogen "arctic fox" Demo.unit_wave None) Demo.job_gone).
  - eexists. split; reflexivity.
  - reflexivity.
  - repeat split.
  - reflexivity.
  - left. reflexivity.
Defined.

(** X5, witness: the end-to-end scenario, the image comes with the second
    poll. *)
Lemma polling_returns_the_first_image_witness :
  exists req0 reqp : Request,
    Demo.arctic_fox Demo.no_env Demo.finishes_on_second_poll
    = (Normal "https://cdn/img.png", polled_run req0 reqp 2).
Proof.
  unfold Demo.arctic_fox.
  apply (polling_returns_the_first_image Demo.no_env Demo.finishes_on_second_poll
           Hydrogen "arctic fox" Demo.unit_wave None
           Demo.job_accepted "https://p/poll" (Scenes.running_then Demo.job_done) 2).
  - apply second_poll_is_reached.
  - eexists. split; reflexivity.
  - reflexivity.
  - reflexivity.
  - reflexivity.
Defined.

(** X6, witness: the second poll is answered 429. *)
Lemma poll_transport_failure_is_final_witness :
  exists req0 reqp : Request,
    Demo.arctic_fox Demo.no_env Scenes.throttled_on_second_poll
    = (Throw (Error "Stable Diffusion poll failed: Too Many Requests"),
       polled_run req0 reqp 2).
Proof.
  unfold Demo.arctic_fox.
  apply (proj1 (poll_transport_failure_is_final Demo.no_env Scenes.throttled_on_second_poll
                  Hydrogen "arctic fox" Demo.unit_wave None
                  Demo.job_accepted "https://p/poll" (Scenes.running_then Demo.job_running) 2
                  (second_poll_is_reached _ _))
           {| reply_ok := false; reply_body := Some "Too Many Requests" |});
    reflexivity.
Defined.

(** X7, witness: the second poll reply carries an error field. *)
Lemma poll_provider_error_is_final_witness :
  exists req0 reqp : Request,
    Demo.arctic_fox Demo.no_env Scenes.error_on_second_poll
    = (Throw (Error "quota exceeded"), polled_run req0 reqp 2).
Proof.
  unfold Demo.arctic_fox.
  apply (poll_provider_error_is_final Demo.no_env Scenes.error_on_second_poll
           Hydrogen "arctic fox" Demo.unit_wave None
           Demo.job_accepted "https://p/poll"
           (Scenes.running_then Demo.job_running_with_error) 2).
  - apply second_poll_is_reached.
  - eexists. split; reflexivity.
  - right. reflexivity.
Defined.

(** X8, witness: the second poll is answered with an HTML page. *)
Lemma poll_body_not_json_is_final_witness :
  exists req0 reqp : Request,
    Demo.arctic_fox Demo.no_env Scenes.page_on_second_poll
    = (Throw (Native BodyAlreadyUsed), polled_run req0 reqp 2).
Proof.
  unfold Demo.arctic_fox.
  apply (poll_body_not_json_is_final Demo.no_env Scenes.page_on_second_poll
           Hydrogen "arctic fox" Demo.unit_wave None
           Demo.job_accepted "https://p/poll" (Scenes.running_then Demo.job_running) 2
           Demo.bad_gateway_page).
  - apply second_poll_is_reached.
  - reflexivity.
  - reflexivity.
Defined.

(** *** Examples for the application *)

(** X16, witness: a first visit, the server sends the image at once. *)
Lemma handleCollapse_counts_images_only_witness :
  isCollapsing
    (state (fst (handleCollapse Demo.no_env engine_message
                   (steady (responses Scenes.image_at_once) 0.25) first_visit first_visit)))
  = false.
Proof.
  pose proof (handleCollapse_counts_images_only Demo.no_env engine_message
                (steady (responses Scenes.image_at_once) 0.25) first_visit first_visit) as H.
  destruct (handleCollapse Demo.no_env engine_message
              (steady (responses Scenes.image_at_once) 0.25) first_visit first_visit)
    as [s' r].
  apply H. right. cbn. lia.
Defined.

(** X17, witness: seven clicks of a first-time visitor on a server that
    always sends an image leave the counter at five at most. *)
Lemma free_runs_stay_within_quota_witness :
  usageCount
    (fst (collapse_all Demo.no_env engine_message
            (repeat (steady (responses Scenes.image_at_once) 0.25) 7) first_visit))
  <= 5.
Proof.
  pose proof (free_runs_stay_within_quota Demo.no_env engine_message
                (repeat (steady (responses Scenes.image_at_once) 0.25) 7) first_visit) as H.
  destruct (collapse_all Demo.no_env engine_message
              (repeat (steady (responses Scenes.image_at_once) 0.25) 7) first_visit)
    as [s' t].
  destruct H as (_ & Hbound & _); [reflexivity|].
  cbn [fst]. change (usageCount first_visit) with 0 in Hbound. cbn in Hbound. lia.
Defined.

(** X18, witness: a selfie URL of three spaces and no selfie data. *)
Lemma selfie_decides_the_endpoint_witness :
  exists (req : Request) (rest : list Event),
    trace (snd (handleCollapse Demo.no_env engine_message
                  (steady (responses Scenes.image_at_once) 0.25)
                  (visitor_with_selfie_url "   ") (visitor_with_selfie_url "   ")))
    = EFetch req :: rest
    /\ url req = SD_ENDPOINT Demo.no_env.
Proof.
  destruct (selfie_decides_the_endpoint Demo.no_env engine_message
              (steady (responses Scenes.image_at_once) 0.25)
              (visitor_with_selfie_url "   ") (visitor_with_selfie_url "   "))
    as (req & rest & Htrace & _ & _ & Hblank).
  - right. cbn. lia.
  - exists req, rest. split; [exact Htrace|]. apply Hblank; [reflexivity | left; reflexivity].
Defined.

Lemma quarter_is_in_range :
  index_below 0.25 8 /\ index_below 0.25 16.
Proof. split; [exists 2 | exists 4]; (split; [reflexivity | lia]). Qed.

(** X19, witness: every random number is a quarter. *)
Lemma pickRandomSubject_is_a_styled_subject_witness :
  exists style subject : string,
    pickRandomSubject (steady (responses Scenes.image_at_once) 0.25) 0
    = style ++ " " ++ subject
    /\ In style VISUAL_STYLES
    /\ In subject ANIMALS.
Proof.
  destruct (pickRandomSubject_is_a_styled_subject
              (steady (responses Scenes.image_at_once) 0.25) 0
              (proj1 quarter_is_in_range) (proj2 quarter_is_in_range))
    as (style & subject & Heq & Hstyle & [(_ & Hsub) | (Hcoin & _)]).
  - exists style, subject. auto.
  - discriminate Hcoin.
Defined.

Lemma zero_is_in_range :
  index_below 0 4 /\ index_below 0 5.
Proof. split; exists 0; (split; [reflexivity | lia]). Qed.

(** X20, witness: every random number is zero. *)
Lemma explainCollapse_is_a_sentence_witness :
  exists o m p f : string,
    In o openings /\ In m motifs /\ In p payoffs /\ In f finishes
    /\ explainCollapse (steady (responses Scenes.image_at_once) 0) 4 Carbon "owl"
       = o ++ ", " ++ m ++ ", " ++ p ++ " owl. " ++ f.
Proof.
  destruct (explainCollapse_is_a_sentence
              (steady (responses Scenes.image_at_once) 0) 4 Carbon "owl"
              (proj1 zero_is_in_range) (proj2 zero_is_in_range)
              (proj1 zero_is_in_range) (proj1 zero_is_in_range))
    as (o & m & p & f & Ho & Hm & Hp & Hf & Heq).
  exists o, m, p, f. repeat split; try assumption. apply Heq.
Defined.
